(** * Sequential Thinking Service

    A shallow embedding of [services/sequential_thinking_service.py] and of
    the data classes of [utils/__init__.py] it uses, together with the
    properties of the thought store that the specification states.

    Python objects that can be reached through more than one reference
    (the [ThoughtData] instances, the history list, the branch dictionary
    and the per-branch lists) live in an explicit heap and are named by
    their address, so that aliasing is visible in the model.

    The later parts embed the three tools of
    [tools/sequential_thinking_tools.py] over the same heap, and of
    [services/arxiv_service.py] the making of a [PaperInfo], the query of
    [advanced_search] and the counting of [get_trending_categories], with
    the [arxiv] library and the clock as parameters. *)

From Stdlib Require Import ZArith Ascii String List Bool Lia Sorted Permutation.
From stdpp Require Import base option list strings.

Local Open Scope string_scope.
Local Open Scope list_scope.
Local Open Scope Z_scope.

(** ** Text: characters, [str.lower] and the two substitutions of
       [_camel_to_snake]

    A key is a sequence of characters with code points below 256.  The
    character classes of the two patterns are the ASCII ranges [A-Z], [a-z]
    and [0-9]; [.] is every character but the line feed. *)

Module Text.

Definition code (c : ascii) : N := N_of_ascii c.

Definition between (lo hi : N) (c : ascii) : bool :=
  ((lo <=? code c) && (code c <=? hi))%N.

(** [[A-Z]] *)
Definition is_upper : ascii -> bool := between 65 90.

(** [[a-z]] *)
Definition is_lower : ascii -> bool := between 97 122.

(** [[0-9]] *)
Definition is_digit : ascii -> bool := between 48 57.

(** [.] without [re.DOTALL] *)
Definition is_dot (c : ascii) : bool := negb (code c =? 10)%N.

(** [str.lower] on one character: the capital letters below code point 256
    are [A-Z], [U+00C0 .. U+00D6] and [U+00D8 .. U+00DE]; each one has its
    small letter 32 places further. *)
Definition lower_char (c : ascii) : ascii :=
  if is_upper c || between 192 214 c || between 216 222 c
  then ascii_of_N (code c + 32)
  else c.

Definition lower (s : list ascii) : list ascii := map lower_char s.

(** The longest prefix of characters in a class, as a greedy [[a-z]+] or
    [[a-z]*] takes it. *)
Fixpoint take_while (p : ascii -> bool) (s : list ascii) : list ascii :=
  match s with
  | c :: s' => if p c then c :: take_while p s' else []
  | [] => []
  end.

(** A pattern tried at the head of the text: the number of characters the
    match takes and the text that replaces them. *)
Definition matcher := list ascii -> option (nat * list ascii).

(** [re.sub] for a pattern whose matches are never empty: the text is read
    from left to right; at the first position where the pattern matches the
    replacement is written and reading goes on behind the match; a
    character at which nothing matches is copied.  [skip] counts the
    characters of the current match still to be passed over. *)
Fixpoint re_sub_from (m : matcher) (skip : nat) (s : list ascii) : list ascii :=
  match s with
  | [] => []
  | c :: s' =>
      match skip with
      | S k => re_sub_from m k s'
      | O =>
          match m s with
          | Some (n, repl) => repl ++ re_sub_from m (Nat.pred n) s'
          | None => c :: re_sub_from m O s'
          end
      end
  end.

Definition re_sub (m : matcher) (s : list ascii) : list ascii :=
  re_sub_from m O s.

Definition underscore : ascii := "_"%char.

(** ['(.)([A-Z][a-z]+)'] replaced by ['\1_\2'] *)
Definition word_start : matcher := fun s =>
  match s with
  | c :: u :: l :: rest =>
      if is_dot c && is_upper u && is_lower l
      then let run := take_while is_lower rest in
           Some ((3 + length run)%nat, c :: underscore :: u :: l :: run)
      else None
  | _ => None
  end.

(** ['([a-z0-9])([A-Z])'] replaced by ['\1_\2'] *)
Definition hump : matcher := fun s =>
  match s with
  | a :: b :: _ =>
      if (is_lower a || is_digit a) && is_upper b
      then Some (2%nat, [a; underscore; b])
      else None
  | _ => None
  end.

End Text.

(** [_camel_to_snake] *)
Definition _camel_to_snake (name : string) : string :=
  let s1 := Text.re_sub Text.word_start (list_ascii_of_string name) in
  string_of_list_ascii (Text.lower (Text.re_sub Text.hump s1)).

(** ** Python values

    [input_data] is declared [Any].  A value is [None], a [bool], an [int],
    a [str], or something else (a float, a list, a nested dictionary, ...)
    of which only its printed form is kept.  The argument of
    [process_thought] is either a dictionary, with its items in insertion
    order, or any other value. *)

Inductive pyval :=
  | PNone
  | PBool (b : bool)
  | PInt (z : Z)
  | PStr (s : string)
  | POther (repr : string).

Inductive pyobj :=
  | Dict (items : list (pyval * pyval))
  | NotDict (v : pyval).

(** ** Dictionaries with string keys

    A Python [dict] keeps its keys in the order of their first insertion;
    assigning to a key that is present replaces the value in place. *)

Section Dictionary.
Context {V : Type}.

Definition dict := list (string * V).

Fixpoint dict_get (d : dict) (k : string) : option V :=
  match d with
  | [] => None
  | (k', v) :: d' => if String.eqb k' k then Some v else dict_get d' k
  end.

Fixpoint dict_set (d : dict) (k : string) (v : V) : dict :=
  match d with
  | [] => [(k, v)]
  | (k', v') :: d' =>
      if String.eqb k' k then (k', v) :: d' else (k', v') :: dict_set d' k v
  end.

Definition dict_keys (d : dict) : list string := map fst d.

Definition dict_has (d : dict) (k : string) : bool :=
  match dict_get d k with Some _ => true | None => false end.

End Dictionary.

Arguments dict : clear implicits.

(** ** The data classes of [utils/__init__.py] *)

Record ThoughtData := {
  thought : string;
  thought_number : Z;
  total_thoughts : Z;
  next_thought_needed : bool;
  is_revision : option bool;
  revises_thought : option Z;
  branch_from_thought : option Z;
  branch_id : option string;
  needs_more_thoughts : option bool
}.

Record ThoughtResponse := {
  resp_thought_number : Z;
  resp_total_thoughts : Z;
  resp_next_thought_needed : bool;
  resp_branches : list string;
  resp_thought_history_length : Z;
  resp_error : option string;
  resp_status : option string
}.

(** The dictionary [get_summary] returns, one field per key. *)
Record Summary := {
  sum_total_thoughts : Z;
  sum_branches : list string;
  sum_branch_count : Z;
  sum_latest_thought_number : Z;
  sum_latest_total_estimate : Z
}.

(** ** What the service takes from its libraries

    pydantic decides whether a value is acceptable for a field declared
    [str], [int] or [bool] and which value the field then holds, and it
    words the text of a [ValidationError]; [re.sub] words the [TypeError]
    for a key that is not a string.  The model is parametric in these: all
    it relies on is that a value which already has the declared type is
    taken as it is. *)

Class Library := {
  as_str : pyval -> option string;
  as_int : pyval -> option Z;
  as_bool : pyval -> option bool;
  str_ValidationError : dict pyval -> string;
  str_TypeError : pyval -> string;
  as_str_exact : forall s, as_str (PStr s) = Some s;
  as_int_exact : forall z, as_int (PInt z) = Some z;
  as_bool_exact : forall b, as_bool (PBool b) = Some b
}.

(** The instance that accepts a value of the declared type and nothing
    else. *)
#[export, refine] Instance strict : Library := {|
  as_str v := match v with PStr s => Some s | _ => None end;
  as_int v := match v with PInt z => Some z | _ => None end;
  as_bool v := match v with PBool b => Some b | _ => None end;
  str_ValidationError _ := "validation error for ThoughtData";
  str_TypeError _ := "expected string or bytes-like object"
|}.
Proof. all: reflexivity. Defined.

Section Fields.
Context `{Library}.

(** [Field(...)]: the key must be there and its value acceptable. *)
Definition required {A} (conv : pyval -> option A) (data : dict pyval)
    (k : string) : option A :=
  match dict_get data k with
  | Some v => conv v
  | None => None
  end.

(** [Optional[...] = Field(None)]: a missing key and [None] give [None]. *)
Definition optional {A} (conv : pyval -> option A) (data : dict pyval)
    (k : string) : option (option A) :=
  match dict_get data k with
  | None | Some PNone => Some None
  | Some v => match conv v with Some a => Some (Some a) | None => None end
  end.

(** [int] with [ge=1] *)
Definition as_int_ge1 (v : pyval) : option Z :=
  match as_int v with
  | Some z => if 1 <=? z then Some z else None
  | None => None
  end.

(** The constructor call on the keywords [data]: the fields that the new
    [ThoughtData] object holds, or [None] when pydantic raises a
    [ValidationError].  Keys that name no field are ignored. *)
Definition ThoughtData_fields (data : dict pyval) : option ThoughtData :=
  match required as_str data "thought",
        required as_int_ge1 data "thought_number",
        required as_int_ge1 data "total_thoughts",
        required as_bool data "next_thought_needed",
        optional as_bool data "is_revision",
        optional as_int_ge1 data "revises_thought",
        optional as_int_ge1 data "branch_from_thought",
        optional as_str data "branch_id",
        optional as_bool data "needs_more_thoughts" with
  | Some t, Some n, Some tot, Some nx, Some ir, Some rt, Some bf, Some bi, Some nm =>
      Some {| thought := t; thought_number := n; total_thoughts := tot;
              next_thought_needed := nx; is_revision := ir;
              revises_thought := rt; branch_from_thought := bf;
              branch_id := bi; needs_more_thoughts := nm |}
  | _, _, _, _, _, _, _, _, _ => None
  end.

(** The loop of [_validate_thought_data] that fills [data]; the first key
    that is not a string stops it with a [TypeError]. *)
Fixpoint snake_items (items : list (pyval * pyval)) (data : dict pyval)
    : pyval + dict pyval :=
  match items with
  | [] => inr data
  | (PStr key, value) :: rest =>
      snake_items rest (dict_set data (_camel_to_snake key) value)
  | (key, _) :: _ => inl key
  end.

End Fields.

(** ** The heap and the monad of the service methods

    A method reads and updates the heap and either returns a value or
    raises an exception, of which the text [str(e)] is kept.  What a method
    wrote before it raised stays written. *)

Abbreviation addr := nat (only parsing).

Record heap := {
  recs : list ThoughtData;       (* the ThoughtData objects *)
  lsts : list (list addr);       (* the list objects, holding ThoughtData addresses *)
  dcts : list (dict addr)        (* the dict objects, from branch id to list address *)
}.

Definition M (A : Type) : Type := heap -> (string + A) * heap.

Definition ret {A} (a : A) : M A := fun h => (inr a, h).

Definition bind {A B} (m : M A) (f : A -> M B) : M B := fun h =>
  match m h with
  | (inr a, h') => f a h'
  | (inl e, h') => (inl e, h')
  end.

Definition raise {A} (e : string) : M A := fun h => (inl e, h).

(** [try: body / except Exception as e: handler] *)
Definition try_except {A} (body : M A) (handler : string -> M A) : M A := fun h =>
  match body h with
  | (inr a, h') => (inr a, h')
  | (inl e, h') => handler e h'
  end.

Notation "x <- c1 ;; c2" := (bind c1 (fun x => c2))
  (at level 100, c1 at next level, right associativity).

Notation "c1 ;; c2" := (bind c1 (fun _ => c2))
  (at level 100, right associativity).

(** An address that names no object cannot arise in Python; the model
    answers it with an exception of its own. *)
Definition dangling : string := "dangling reference".

Definition of_option {A} (o : option A) (e : string) : M A :=
  match o with Some a => ret a | None => raise e end.

(** *** Objects *)

Definition new_record (td : ThoughtData) : M addr := fun h =>
  (inr (length (recs h)),
   {| recs := recs h ++ [td]; lsts := lsts h; dcts := dcts h |}).

Definition load_record (r : addr) : M ThoughtData := fun h =>
  of_option (recs h !! r) dangling h.

Definition store_record (r : addr) (td : ThoughtData) : M unit := fun h =>
  match recs h !! r with
  | Some _ => (inr tt, {| recs := <[r := td]> (recs h); lsts := lsts h; dcts := dcts h |})
  | None => (inl dangling, h)
  end.

Definition new_list (items : list addr) : M addr := fun h =>
  (inr (length (lsts h)),
   {| recs := recs h; lsts := lsts h ++ [items]; dcts := dcts h |}).

Definition load_list (l : addr) : M (list addr) := fun h =>
  of_option (lsts h !! l) dangling h.

Definition store_list (l : addr) (items : list addr) : M unit := fun h =>
  match lsts h !! l with
  | Some _ => (inr tt, {| recs := recs h; lsts := <[l := items]> (lsts h); dcts := dcts h |})
  | None => (inl dangling, h)
  end.

Definition new_dict (entries : dict addr) : M addr := fun h =>
  (inr (length (dcts h)),
   {| recs := recs h; lsts := lsts h; dcts := dcts h ++ [entries] |}).

Definition load_dict (d : addr) : M (dict addr) := fun h =>
  of_option (dcts h !! d) dangling h.

Definition store_dict (d : addr) (entries : dict addr) : M unit := fun h =>
  match dcts h !! d with
  | Some _ => (inr tt, {| recs := recs h; lsts := lsts h; dcts := <[d := entries]> (dcts h) |})
  | None => (inl dangling, h)
  end.

(** *** The operations of Python the service uses *)

(** [obj.total_thoughts = n] *)
Definition set_total_thoughts (r : addr) (n : Z) : M unit :=
  td <- load_record r ;;
  store_record r
    {| thought := thought td; thought_number := thought_number td;
       total_thoughts := n; next_thought_needed := next_thought_needed td;
       is_revision := is_revision td; revises_thought := revises_thought td;
       branch_from_thought := branch_from_thought td; branch_id := branch_id td;
       needs_more_thoughts := needs_more_thoughts td |}.

(** [l.append(x)] *)
Definition list_append (l x : addr) : M unit :=
  items <- load_list l ;; store_list l (items ++ [x]).

(** [len(l)] *)
Definition list_len (l : addr) : M Z :=
  items <- load_list l ;; ret (Z.of_nat (length items)).

(** [l.copy()] *)
Definition list_copy (l : addr) : M addr :=
  items <- load_list l ;; new_list items.

(** [l.clear()] *)
Definition list_clear (l : addr) : M unit :=
  load_list l ;; store_list l [].

(** [l[-1]] *)
Definition list_last (l : addr) : M addr :=
  items <- load_list l ;; of_option (last items) "list index out of range".

(** [k in d] *)
Definition dict_contains (d : addr) (k : string) : M bool :=
  entries <- load_dict d ;; ret (dict_has entries k).

(** [d[k] = v] *)
Definition dict_setitem (d : addr) (k : string) (v : addr) : M unit :=
  entries <- load_dict d ;; store_dict d (dict_set entries k v).

(** [d[k]]; the text of a [KeyError] is the key in quotes *)
Definition dict_getitem (d : addr) (k : string) : M addr :=
  entries <- load_dict d ;;
  of_option (dict_get entries k) ("'" ++ k ++ "'")%string.

(** [list(d.keys())] *)
Definition dict_key_list (d : addr) : M (list string) :=
  entries <- load_dict d ;; ret (dict_keys entries).

(** [len(d)] *)
Definition dict_len (d : addr) : M Z :=
  entries <- load_dict d ;; ret (Z.of_nat (length entries)).

(** [d.copy()] *)
Definition dict_copy (d : addr) : M addr :=
  entries <- load_dict d ;; new_dict entries.

(** [d.clear()] *)
Definition dict_clear (d : addr) : M unit :=
  load_dict d ;; store_dict d [].

(** Truth value of an [Optional[int]] and of an [Optional[str]]. *)
Definition truthy_int (o : option Z) : bool :=
  match o with Some z => negb (z =? 0) | None => false end.

Definition truthy_str (o : option string) : bool :=
  match o with Some s => negb (String.eqb s "") | None => false end.

(** ** [SequentialThinkingService]

    The two attributes hold the addresses of the history list and of the
    branch dictionary.  The log that loguru writes, and with it
    [disable_thought_logging] and [_format_thought], is left out: it is
    written after the store is updated, reads the new record only and
    takes no part in the returned value. *)

Record Service := {
  thought_history : addr;
  branches : addr
}.

(** [__init__] *)
Definition init : M Service :=
  th <- new_list [] ;;
  br <- new_dict [] ;;
  ret {| thought_history := th; branches := br |}.

Definition failed (n : Z) (e : string) : ThoughtResponse :=
  {| resp_thought_number := 0; resp_total_thoughts := 0;
     resp_next_thought_needed := false; resp_branches := [];
     resp_thought_history_length := n;
     resp_error := Some e; resp_status := Some "failed" |}.

Section Methods.
Context `{Library}.

Definition _validate_thought_data (input_data : pyobj) : M addr :=
  try_except
    (match input_data with
     | Dict items =>
         match snake_items items [] with
         | inr data =>
             match ThoughtData_fields data with
             | Some td => new_record td
             | None => raise (str_ValidationError data)
             end
         | inl key => raise (str_TypeError key)
         end
     | NotDict _ => raise "Input must be a dictionary"
     end)
    (fun e => raise ("Invalid thought data: " ++ e)%string).

Definition process_thought (self : Service) (input_data : pyobj)
    : M ThoughtResponse :=
  try_except
    (validated_input <- _validate_thought_data input_data ;;
     v <- load_record validated_input ;;
     (if total_thoughts v <? thought_number v
      then set_total_thoughts validated_input (thought_number v)
      else ret tt) ;;
     list_append (thought_history self) validated_input ;;
     v <- load_record validated_input ;;
     (if truthy_int (branch_from_thought v) && truthy_str (branch_id v)
      then
        match branch_id v with
        | Some b =>
            known <- dict_contains (branches self) b ;;
            (if known then ret tt
             else l <- new_list [] ;; dict_setitem (branches self) b l) ;;
            l <- dict_getitem (branches self) b ;;
            list_append l validated_input
        | None => ret tt
        end
      else ret tt) ;;
     v <- load_record validated_input ;;
     keys <- dict_key_list (branches self) ;;
     n <- list_len (thought_history self) ;;
     ret {| resp_thought_number := thought_number v;
            resp_total_thoughts := total_thoughts v;
            resp_next_thought_needed := next_thought_needed v;
            resp_branches := keys;
            resp_thought_history_length := n;
            resp_error := None; resp_status := None |})
    (fun e =>
       n <- list_len (thought_history self) ;;
       ret (failed n e)).

Definition get_thought_history (self : Service) : M addr :=
  list_copy (thought_history self).

Definition get_branches (self : Service) : M addr :=
  dict_copy (branches self).

Definition clear_history (self : Service) : M unit :=
  list_clear (thought_history self) ;;
  dict_clear (branches self).

Definition get_summary (self : Service) : M Summary :=
  n <- list_len (thought_history self) ;;
  keys <- dict_key_list (branches self) ;;
  count <- dict_len (branches self) ;;
  items <- load_list (thought_history self) ;;
  latest_number <-
    (match items with
     | [] => ret 0
     | _ => r <- list_last (thought_history self) ;;
            v <- load_record r ;; ret (thought_number v)
     end) ;;
  latest_total <-
    (match items with
     | [] => ret 0
     | _ => r <- list_last (thought_history self) ;;
            v <- load_record r ;; ret (total_thoughts v)
     end) ;;
  ret {| sum_total_thoughts := n; sum_branches := keys;
         sum_branch_count := count;
         sum_latest_thought_number := latest_number;
         sum_latest_total_estimate := latest_total |}.

End Methods.

(** ** Reading the store

    What a caller can observe of a service: the addresses in the history
    list, the entries of the branch dictionary, and the contents of the
    list a branch id leads to. *)

Definition the_list (h : heap) (l : addr) : list addr :=
  default [] (lsts h !! l).

Definition history (self : Service) (h : heap) : list addr :=
  the_list h (thought_history self).

Definition branch_dict (self : Service) (h : heap) : dict addr :=
  default [] (dcts h !! branches self).

(** The branch dictionary with each list address replaced by the list. *)
Definition branch_lists (self : Service) (h : heap) : dict (list addr) :=
  map (fun e => (fst e, the_list h (snd e))) (branch_dict self h).

(** [branches[b]], when [b] is a key. *)
Definition branch (self : Service) (h : heap) (b : string) : option (list addr) :=
  dict_get (branch_lists self h) b.

(** The history with the record each address holds. *)
Definition history_records (self : Service) (h : heap) : list ThoughtData :=
  omap (fun r => recs h !! r) (history self h).

(** The shape every store built by the methods has: the two attributes
    name objects, the branch lists are objects of their own, one per key,
    none of them the history list, and the history holds records. *)
Record wf (self : Service) (h : heap) : Prop := {
  wf_history : (thought_history self < length (lsts h))%nat;
  wf_branches : (branches self < length (dcts h))%nat;
  wf_keys : NoDup (map fst (branch_dict self h));
  wf_lists : NoDup (map snd (branch_dict self h));
  wf_separate :
    Forall (fun a => (a < length (lsts h))%nat /\ a <> thought_history self)
           (map snd (branch_dict self h));
  wf_records : Forall (fun r => (r < length (recs h))%nat) (history self h)
}.

(** The record that is stored for the validated fields [td]. *)
Definition adjusted (td : ThoughtData) : ThoughtData :=
  if total_thoughts td <? thought_number td
  then {| thought := thought td; thought_number := thought_number td;
          total_thoughts := thought_number td;
          next_thought_needed := next_thought_needed td;
          is_revision := is_revision td; revises_thought := revises_thought td;
          branch_from_thought := branch_from_thought td; branch_id := branch_id td;
          needs_more_thoughts := needs_more_thoughts td |}
  else td.

(** The branch a record is registered under, if any. *)
Definition registers (td : ThoughtData) : option string :=
  if truthy_int (branch_from_thought td) && truthy_str (branch_id td)
  then branch_id td else None.

(** [d[b].append(r)], with [d[b] = []] first when [b] is new. *)
Fixpoint dict_append (d : dict (list addr)) (b : string) (r : addr)
    : dict (list addr) :=
  match d with
  | [] => [(b, [r])]
  | (k, l) :: d' =>
      if String.eqb k b then (k, l ++ [r]) :: d' else (k, l) :: dict_append d' b r
  end.

Definition register (d : dict (list addr)) (r : addr) (td : ThoughtData)
    : dict (list addr) :=
  match registers td with
  | Some b => dict_append d b r
  | None => d
  end.

Section Validation.
Context `{Library}.

(** The outcome of [_validate_thought_data] without the heap: the text of
    the exception raised inside the [try], or the fields of the new
    object. *)
Definition parse (input_data : pyobj) : string + ThoughtData :=
  match input_data with
  | Dict items =>
      match snake_items items [] with
      | inr data =>
          match ThoughtData_fields data with
          | Some td => inr td
          | None => inl (str_ValidationError data)
          end
      | inl key => inl (str_TypeError key)
      end
  | NotDict _ => inl "Input must be a dictionary"
  end.

End Validation.

(** ** What a call of [process_thought] does *)

Definition accepted_response (v : ThoughtData) (keys : list string) (n : Z)
    : ThoughtResponse :=
  {| resp_thought_number := thought_number v;
     resp_total_thoughts := total_thoughts v;
     resp_next_thought_needed := next_thought_needed v;
     resp_branches := keys;
     resp_thought_history_length := n;
     resp_error := None; resp_status := None |}.

(** The heap once the record [v] is stored at the end of the history, and
    once the record at [r] is entered in the branch index. *)
Definition after_store (self : Service) (h : heap) (v : ThoughtData) : heap :=
  {| recs := recs h ++ [v];
     lsts := <[thought_history self := history self h ++ [length (recs h)]]> (lsts h);
     dcts := dcts h |}.

Definition after_register (self : Service) (h : heap) (r : addr) (v : ThoughtData)
    : heap :=
  match registers v with
  | None => h
  | Some b =>
      match dict_get (branch_dict self h) b with
      | Some a =>
          {| recs := recs h;
             lsts := <[a := the_list h a ++ [r]]> (lsts h);
             dcts := dcts h |}
      | None =>
          {| recs := recs h;
             lsts := <[length (lsts h) := [] ++ [r]]> (lsts h ++ [[]]);
             dcts := <[branches self := dict_set (branch_dict self h) b (length (lsts h))]>
                       (dcts h) |}
      end
  end.

(** The heap after a call that stores the validated fields [td]. *)
Definition after_call (self : Service) (h : heap) (td : ThoughtData) : heap :=
  after_register self (after_store self h (adjusted td)) (length (recs h)) (adjusted td).

(** ** The branch index as a function of the history

    [index R hist] enters the records of [hist], in order, into an empty
    dictionary; [R] is the record heap. *)

Definition enter (R : list ThoughtData) (d : dict (list addr)) (r : addr)
    : dict (list addr) :=
  match R !! r with
  | Some v => register d r v
  | None => d
  end.

Definition index (R : list ThoughtData) (hist : list addr) : dict (list addr) :=
  fold_left (enter R) hist [].

(** The record at [r] is registered under [b]. *)
Definition registered_under (R : list ThoughtData) (b : string) (r : addr) : bool :=
  match R !! r with
  | Some v => match registers v with Some b' => String.eqb b' b | None => false end
  | None => false
  end.

(** The branch ids in the order in which they are first seen. *)
Definition first_seen (ks : list string) : list string :=
  fold_left (fun acc k => if bool_decide (k ∈ acc) then acc else acc ++ [k]) ks [].

Definition branch_ids (R : list ThoughtData) (hist : list addr) : list string :=
  omap (fun r => match R !! r with Some v => registers v | None => None end) hist.

(** ** The other methods *)

Definition after_clear (self : Service) (h : heap) : heap :=
  {| recs := recs h;
     lsts := <[thought_history self := []]> (lsts h);
     dcts := <[branches self := []]> (dcts h) |}.

Definition summary_of (self : Service) (h : heap) : Summary :=
  {| sum_total_thoughts := Z.of_nat (length (history self h));
     sum_branches := dict_keys (branch_dict self h);
     sum_branch_count := Z.of_nat (length (branch_dict self h));
     sum_latest_thought_number :=
       match last (history_records self h) with Some v => thought_number v | None => 0 end;
     sum_latest_total_estimate :=
       match last (history_records self h) with Some v => total_thoughts v | None => 0 end |}.

(** ** Validated records *)

(** The constraints of the [ThoughtData] fields. *)
Definition valid (v : ThoughtData) : Prop :=
  1 <= thought_number v /\ 1 <= total_thoughts v
  /\ (forall z, revises_thought v = Some z -> 1 <= z)
  /\ (forall z, branch_from_thought v = Some z -> 1 <= z).

(** ** The invariant of the store *)

Record consistent (self : Service) (h : heap) : Prop := {
  c_wf : wf self h;
  c_index : branch_lists self h = index (recs h) (history self h);
  c_valid : Forall (fun r => exists v, recs h !! r = Some v /\ valid v) (history self h)
}.

(** ** Sessions: a service and a sequence of calls on it *)

Inductive call :=
  | Process (input_data : pyobj)
  | Clear.

Section Sessions.
Context `{Library}.

Definition run_call (self : Service) (c : call) : M unit :=
  match c with
  | Process input_data => process_thought self input_data ;; ret tt
  | Clear => clear_history self
  end.

Fixpoint run_calls (self : Service) (cs : list call) : M unit :=
  match cs with
  | [] => ret tt
  | c :: cs' => run_call self c ;; run_calls self cs'
  end.

Definition session (cs : list call) : M Service :=
  self <- init ;; run_calls self cs ;; ret self.

(** The records that the calls leave in the history: every accepted
    submission since the last clear, with its estimate raised. *)
Definition submit (acc : list ThoughtData) (c : call) : list ThoughtData :=
  match c with
  | Process input_data =>
      match parse input_data with
      | inr td => acc ++ [adjusted td]
      | inl _ => acc
      end
  | Clear => []
  end.

Definition submitted_from (acc : list ThoughtData) (cs : list call)
    : list ThoughtData :=
  fold_left submit cs acc.

Definition submitted (cs : list call) : list ThoughtData := submitted_from [] cs.

End Sessions.

(** ** Payloads

    A payload is a dictionary whose keys are strings, as the tool adapter
    and a JSON request give it. *)

Definition payload := list (string * pyval).

Definition as_dict (p : payload) : pyobj :=
  Dict (map (fun kv => (PStr (fst kv), snd kv)) p).

(** The dictionary [data] that the loop of [_validate_thought_data] builds
    from a payload. *)
Definition normalised_from (data : dict pyval) (p : payload) : dict pyval :=
  fold_left (fun d kv => dict_set d (_camel_to_snake (fst kv)) (snd kv)) p data.

Definition normalised (p : payload) : dict pyval := normalised_from [] p.

Definition empty_heap : heap := {| recs := []; lsts := []; dcts := [] |}.

(** The scenarios of the specification. *)
Definition step_A : payload :=
  [("thought", PStr "A"); ("thought_number", PInt 1); ("total_thoughts", PInt 3);
   ("next_thought_needed", PBool true)].

Definition step_B : payload :=
  [("thought", PStr "B"); ("thought_number", PInt 5); ("total_thoughts", PInt 3);
   ("next_thought_needed", PBool false)].

Definition fields_B : ThoughtData :=
  {| thought := "B"; thought_number := 5; total_thoughts := 3;
     next_thought_needed := false; is_revision := None;
     revises_thought := None; branch_from_thought := None;
     branch_id := None; needs_more_thoughts := None |}.

Definition step_C : payload :=
  [("thought", PStr "C"); ("thought_number", PInt 2); ("total_thoughts", PInt 3);
   ("next_thought_needed", PBool true); ("branch_from_thought", PInt 1);
   ("branch_id", PStr "x")].

Definition no_thought : payload :=
  [("thought_number", PInt 1); ("total_thoughts", PInt 3);
   ("next_thought_needed", PBool true)].

(** The store after [step_A] and [step_C] on a new service. *)
Definition demo_self : Service := {| thought_history := 0; branches := 0 |}.

Definition demo_heap : heap :=
  {| recs :=
       [ {| thought := "A"; thought_number := 1; total_thoughts := 3;
            next_thought_needed := true; is_revision := None;
            revises_thought := None; branch_from_thought := None;
            branch_id := None; needs_more_thoughts := None |};
         {| thought := "C"; thought_number := 2; total_thoughts := 3;
            next_thought_needed := true; is_revision := None;
            revises_thought := None; branch_from_thought := Some 1;
            branch_id := Some "x"; needs_more_thoughts := None |} ];
     lsts := [[0; 1]; [1]]%nat;
     dcts := [[("x", 1%nat)]] |}.

(** ** Key spellings *)

(** The spellings the tool adapter uses for the fields, by field name. *)
Definition spellings : dict string :=
  [("next_thought_needed", "nextThoughtNeeded");
   ("thought_number", "thoughtNumber");
   ("total_thoughts", "totalThoughts");
   ("is_revision", "isRevision");
   ("revises_thought", "revisesThought");
   ("branch_from_thought", "branchFromThought");
   ("branch_id", "branchId");
   ("needs_more_thoughts", "needsMoreThoughts")].

Definition camel_of (k : string) : string := default k (dict_get spellings k).

Definition camel_keys (p : payload) : payload :=
  map (fun kv => (camel_of (fst kv), snd kv)) p.

Definition step_blank : payload :=
  [("thought", PStr "A"); ("thought_number", PInt 1); ("total_thoughts", PInt 1);
   ("next_thought_needed", PBool true); ("branch_from_thought", PInt 1);
   ("branch_id", PStr "")].

(** ** The validation rules *)

Definition rejected `{Library} (input_data : pyobj) (h : heap) : Prop :=
  exists e h', _validate_thought_data input_data h = (inl e, h').

Section RuleDefs.
Context `{Library}.
Variable data : dict pyval.

(** The key is not there. *)
Definition missing (k : string) : Prop := dict_get data k = None.

(** The value of a required field is one that the library does not
    accept for the declared type, which [conv] stands for. *)
Definition not_accepted {A} (conv : pyval -> option A) (k : string) : Prop :=
  exists v, dict_get data k = Some v /\ conv v = None.

(** The value of an optional field is there, is not [None], and is one
    that the library does not accept for the declared type. *)
Definition not_accepted_opt {A} (conv : pyval -> option A) (k : string) : Prop :=
  exists v, dict_get data k = Some v /\ v <> PNone /\ conv v = None.

(** The number that the library reads the value as is below one. *)
Definition below_one (k : string) : Prop :=
  exists v z, dict_get data k = Some v /\ as_int v = Some z /\ z < 1.

Definition below_one_opt (k : string) : Prop :=
  exists v z, dict_get data k = Some v /\ v <> PNone /\ as_int v = Some z /\ z < 1.

(** The rules of the specification, the one on the empty text apart. *)
Definition violates : Prop :=
  (missing "thought" \/ missing "thought_number" \/ missing "total_thoughts"
   \/ missing "next_thought_needed")
  \/ (not_accepted as_str "thought" \/ not_accepted as_int "thought_number"
      \/ not_accepted as_int "total_thoughts" \/ not_accepted as_bool "next_thought_needed"
      \/ not_accepted_opt as_bool "is_revision" \/ not_accepted_opt as_int "revises_thought"
      \/ not_accepted_opt as_int "branch_from_thought" \/ not_accepted_opt as_str "branch_id"
      \/ not_accepted_opt as_bool "needs_more_thoughts")
  \/ (below_one "thought_number" \/ below_one "total_thoughts")
  \/ (below_one_opt "revises_thought" \/ below_one_opt "branch_from_thought").

(** The thought text is the empty string. *)
Definition empty_thought : Prop :=
  exists v, dict_get data "thought" = Some v /\ as_str v = Some "".

End RuleDefs.

Definition step_empty : payload :=
  [("thought", PStr ""); ("thought_number", PInt 1); ("total_thoughts", PInt 1);
   ("next_thought_needed", PBool true)].

(** ** Acceptance is the library's

    A value of another type than the declared one is rejected by one
    library and taken by another. *)

Definition digit_value (c : ascii) : option Z :=
  if Text.is_digit c then Some (Z.of_nat (nat_of_ascii c) - 48) else None.

(** The number that a text of decimal digits writes. *)
Fixpoint digits_value (s : string) (acc : option Z) : option Z :=
  match s with
  | EmptyString => acc
  | String c s' =>
      match digit_value c with
      | Some d => digits_value s' (Some (10 * default 0 acc + d))
      | None => None
      end
  end.

(** A library that takes more than [strict]: a text of decimal digits for
    a field declared [int], and the numbers 0 and 1 for a field declared
    [bool]. *)
Definition coercing : Library := {|
  as_str v := match v with PStr s => Some s | _ => None end;
  as_int v :=
    match v with PInt z => Some z | PStr s => digits_value s None | _ => None end;
  as_bool v :=
    match v with
    | PBool b => Some b
    | PInt 0 => Some false
    | PInt 1 => Some true
    | _ => None
    end;
  str_ValidationError _ := "validation error for ThoughtData";
  str_TypeError _ := "expected string or bytes-like object";
  as_str_exact := fun s => eq_refl;
  as_int_exact := fun z => eq_refl;
  as_bool_exact := fun b => eq_refl
|}.

Definition step_text_number : payload :=
  [("thought", PStr "A"); ("thought_number", PStr "5"); ("total_thoughts", PInt 5);
   ("next_thought_needed", PInt 1)].

(** ** The field [needs_more_thoughts] *)

Definition nmt : string := "needs_more_thoughts".






Definition with_nmt (v : pyval) : payload := step_A ++ [(nmt, v)].

(** The value that the last item for the field [k] gives. *)
Fixpoint latest (p : payload) (k : string) : option pyval :=
  match p with
  | [] => None
  | (k', v) :: p' =>
      match latest p' k with
      | Some w => Some w
      | None => if String.eqb (_camel_to_snake k') k then Some v else None
      end
  end.

(** ** Copies handed to the caller *)

Section Copies.
Context `{Library}.

(** [self.get_branches()[b].append(r)], by a caller *)
Definition caller_appends (self : Service) (b : string) (r : addr) : M unit :=
  d <- get_branches self ;;
  l <- dict_getitem d b ;;
  list_append l r.

(** [len(self.get_branches()[b])] *)
Definition caller_reads (self : Service) (b : string) : M Z :=
  d <- get_branches self ;;
  l <- dict_getitem d b ;;
  list_len l.

(** [self.get_thought_history()[-1].total_thoughts = n], by a caller *)
Definition caller_rewrites (self : Service) (n : Z) : M unit :=
  l <- get_thought_history self ;;
  r <- list_last l ;;
  set_total_thoughts r n.

End Copies.

(** ** The records of two more payloads *)

Definition fields_blank : ThoughtData :=
  {| thought := "A"; thought_number := 1; total_thoughts := 1;
     next_thought_needed := true; is_revision := None;
     revises_thought := None; branch_from_thought := Some 1;
     branch_id := Some ""; needs_more_thoughts := None |}.

Definition fields_empty : ThoughtData :=
  {| thought := ""; thought_number := 1; total_thoughts := 1;
     next_thought_needed := true; is_revision := None;
     revises_thought := None; branch_from_thought := None;
     branch_id := None; needs_more_thoughts := None |}.

(** ** More on [_camel_to_snake] *)

(** A capital letter, as [str.lower] sees it. *)
Definition is_capital (c : ascii) : bool :=
  Text.is_upper c || Text.between 192 214 c || Text.between 216 222 c.



Definition chars (s : string) : list ascii := list_ascii_of_string s.

(** ** Inputs that are no payload, and what a payload is read for *)

(** The names of the fields of [ThoughtData]. *)
Definition field_names : list string :=
  ["thought"; "thought_number"; "total_thoughts"; "next_thought_needed";
   "is_revision"; "revises_thought"; "branch_from_thought"; "branch_id";
   "needs_more_thoughts"].

Definition is_str (v : pyval) : bool :=
  match v with PStr _ => true | _ => false end.

Definition step_A_respelled : payload :=
  [("note", PStr "n"); ("thoughtNumber", PInt 7); ("thought", PStr "A");
   ("thought_number", PInt 1); ("totalThoughts", PInt 3);
   ("NextThoughtNeeded", PBool true)].

(** ** Clearing, copies and growth *)

Definition zero_summary : Summary :=
  {| sum_total_thoughts := 0; sum_branches := []; sum_branch_count := 0;
     sum_latest_thought_number := 0; sum_latest_total_estimate := 0 |}.

Definition record_C : ThoughtData :=
  {| thought := "C"; thought_number := 2; total_thoughts := 3;
     next_thought_needed := true; is_revision := None;
     revises_thought := None; branch_from_thought := Some 1;
     branch_id := Some "x"; needs_more_thoughts := None |}.


(** ** The tools of [SequentialThinkingToolProvider]

    The three functions that [_register_tools] hands to the server.  The
    server checks the arguments of a call against the annotations, so a
    call has a value of the declared type for every parameter, or none for
    a parameter with the default [None].  The provider's [service] is the
    service the tools work on. *)

Record ThinkingArguments := {
  arg_thought : string;
  arg_next_thought_needed : bool;
  arg_thought_number : Z;
  arg_total_thoughts : Z;
  arg_is_revision : bool;
  arg_revises_thought : option Z;
  arg_branch_from_thought : option Z;
  arg_branch_id : option string;
  arg_needs_more_thoughts : option bool
}.

(** The dictionary a tool returns when the service answered. *)
Record ThinkingReply := {
  reply_thought_number : Z;
  reply_total_thoughts : Z;
  reply_next_thought_needed : bool;
  reply_branches : list string;
  reply_thought_history_length : Z;
  reply_error : option string;
  reply_status : string
}.

(** The dictionary of the [except] branch of a tool: error and status. *)
Record ToolFailure := {
  failure_error : string;
  failure_status : string
}.

Definition py_int (o : option Z) : pyval :=
  match o with Some z => PInt z | None => PNone end.

Definition py_str (o : option string) : pyval :=
  match o with Some s => PStr s | None => PNone end.

Definition py_bool (o : option bool) : pyval :=
  match o with Some b => PBool b | None => PNone end.

(** [input_data] as the tool writes it. *)
Definition tool_payload (a : ThinkingArguments) : payload :=
  [("thought", PStr (arg_thought a));
   ("nextThoughtNeeded", PBool (arg_next_thought_needed a));
   ("thoughtNumber", PInt (arg_thought_number a));
   ("totalThoughts", PInt (arg_total_thoughts a));
   ("isRevision", PBool (arg_is_revision a));
   ("revisesThought", py_int (arg_revises_thought a));
   ("branchFromThought", py_int (arg_branch_from_thought a));
   ("branchId", py_str (arg_branch_id a));
   ("needsMoreThoughts", py_bool (arg_needs_more_thoughts a))].

(** [x or "success"] for an optional string. *)
Definition or_success (status : option string) : string :=
  if truthy_str status then default "" status else "success".

Section Tools.
Context `{Library}.

Definition sequential_thinking (service : Service) (a : ThinkingArguments)
    : M (ThinkingReply + ToolFailure) :=
  try_except
    (response <- process_thought service (as_dict (tool_payload a)) ;;
     ret (inl {| reply_thought_number := resp_thought_number response;
                 reply_total_thoughts := resp_total_thoughts response;
                 reply_next_thought_needed := resp_next_thought_needed response;
                 reply_branches := resp_branches response;
                 reply_thought_history_length := resp_thought_history_length response;
                 reply_error := resp_error response;
                 reply_status := or_success (resp_status response) |}))
    (fun e => ret (inr {| failure_error := e; failure_status := "failed" |})).

Definition get_thought_summary (service : Service) : M (Summary + ToolFailure) :=
  try_except
    (summary <- get_summary service ;; ret (inl summary))
    (fun e => ret (inr {| failure_error := e; failure_status := "failed" |})).

Definition clear_thought_history (service : Service)
    : M (string * string + ToolFailure) :=
  try_except
    (clear_history service ;;
     ret (inl ("success", "Thought history and branches cleared")))
    (fun e => ret (inr {| failure_error := e; failure_status := "failed" |})).

End Tools.

(** The arguments meet the constraints of the record. *)
Definition arguments_ok (a : ThinkingArguments) : Prop :=
  1 <= arg_thought_number a /\ 1 <= arg_total_thoughts a
  /\ (forall z, arg_revises_thought a = Some z -> 1 <= z)
  /\ (forall z, arg_branch_from_thought a = Some z -> 1 <= z).



Definition arguments_zero : ThinkingArguments :=
  {| arg_thought := "Z"; arg_next_thought_needed := false;
     arg_thought_number := 0; arg_total_thoughts := 3;
     arg_is_revision := false; arg_revises_thought := None;
     arg_branch_from_thought := None; arg_branch_id := None;
     arg_needs_more_thoughts := None |}.

(** ** [ArXivService]

    The library [arxiv] and the clock stay outside: a query is answered by
    the results the library yields, followed by an exception or not, and a
    datetime is known by its ISO text. *)

Inductive datetime := Datetime (iso : string).

Definition isoformat (d : datetime) : string :=
  match d with Datetime iso => iso end.

(** [arxiv.Result], with the names of the authors for [authors]. *)

Module Result.

Record t := {
  entry_id : string;
  title : string;
  authors : list string;
  summary : string;
  published : datetime;
  updated : datetime;
  categories : list string;
  pdf_url : option string;
  primary_category : option string;
  journal_ref : option string;
  doi : option string;
  comment : option string
}.

End Result.

(** [PaperInfo] of [utils/__init__.py] *)

Module PaperInfo.

Record t := {
  arxiv_id : string;
  title : string;
  authors : list string;
  abstract : string;
  published : string;
  updated : string;
  categories : list string;
  pdf_url : string;
  arxiv_url : string;
  summary : string;
  primary_category : option string;
  journal_ref : option string;
  doi : option string;
  comment : option string;
  version : option string
}.

End PaperInfo.

Inductive SortCriterion := Relevance | SubmittedDate | LastUpdatedDate.

Inductive SortOrder := Ascending | Descending.

(** [arxiv.Search(...)] *)
Record Search := {
  query : string;
  id_list : list string;
  max_results : option Z;
  sort_by : SortCriterion;
  sort_order : SortOrder
}.

(** What iterating over [search.results()] gives: the results yielded, and
    the text of the exception that ends the iteration, if one does. *)
Definition yielded := (list Result.t * option string)%type.

(** [s.split(sep)] for a separator of one character *)
Fixpoint split_on (sep : ascii) (s : string) : list string :=
  match s with
  | EmptyString => [""]
  | String c s' =>
      if Ascii.eqb c sep then "" :: split_on sep s'
      else match split_on sep s' with
           | p :: ps => String c p :: ps
           | [] => [String c ""]
           end
  end.

(** [c in s] *)
Fixpoint contains (c : ascii) (s : string) : bool :=
  match s with
  | EmptyString => false
  | String c' s' => Ascii.eqb c' c || contains c s'
  end.

Definition the_v : ascii := "v"%char.

Definition the_slash : ascii := "/"%char.

(** The text of the [ValidationError] that pydantic raises for a result
    without [pdf_url]; the field is declared [str]. *)

Section Papers.
Variable paper_error : Result.t -> string.

(** [_create_paper_info] *)
Definition _create_paper_info (result : Result.t) : string + PaperInfo.t :=
  let arxiv_id := List.last (split_on the_slash (Result.entry_id result)) "" in
  let version :=
    if contains the_v arxiv_id
    then Some (List.last (split_on the_v arxiv_id) "") else None in
  let arxiv_id :=
    if contains the_v arxiv_id then List.hd "" (split_on the_v arxiv_id)
    else arxiv_id in
  let arxiv_url :=
    if truthy_str version
    then ("https://arxiv.org/abs/" ++ arxiv_id ++ "v" ++ default "" version)%string
    else ("https://arxiv.org/abs/" ++ arxiv_id)%string in
  match Result.pdf_url result with
  | None => inl (paper_error result)
  | Some pdf =>
      inr {| PaperInfo.arxiv_id := arxiv_id;
             PaperInfo.title := Result.title result;
             PaperInfo.authors := Result.authors result;
             PaperInfo.abstract := Result.summary result;
             PaperInfo.published := isoformat (Result.published result);
             PaperInfo.updated := isoformat (Result.updated result);
             PaperInfo.categories := Result.categories result;
             PaperInfo.pdf_url := pdf;
             PaperInfo.arxiv_url := arxiv_url;
             PaperInfo.summary :=
               (Result.title result ++ " by "
                ++ String.concat ", " (firstn 3 (Result.authors result))
                ++ (if (3 <? length (Result.authors result))%nat then "..." else ""))%string;
             PaperInfo.primary_category := Result.primary_category result;
             PaperInfo.journal_ref := Result.journal_ref result;
             PaperInfo.doi := Result.doi result;
             PaperInfo.comment := Result.comment result;
             PaperInfo.version := version |}
  end.

(** The loop [for result in search.results(): results.append(
    self._create_paper_info(result))]: the list, or the first exception. *)
Fixpoint collect (rs : list Result.t) (raised : option string)
    : string + list PaperInfo.t :=
  match rs with
  | [] => match raised with Some e => inl e | None => inr [] end
  | r :: rs' =>
      match _create_paper_info r with
      | inl e => inl e
      | inr p =>
          match collect rs' raised with
          | inr ps => inr (p :: ps)
          | inl e => inl e
          end
      end
  end.

End Papers.

(** The dictionary lookup of [sort_by], with its default. *)
Definition sort_criteria (name : string) : SortCriterion :=
  if String.eqb name "relevance" then Relevance
  else if String.eqb name "submittedDate" then SubmittedDate
  else if String.eqb name "lastUpdatedDate" then LastUpdatedDate
  else Relevance.

Definition sort_order_enum (name : string) : SortOrder :=
  if String.eqb name "desc" then Descending else Ascending.

Definition nonempty (s : string) : bool := negb (String.eqb s "").

(** The parameters of [advanced_search]. *)
Record AdvancedArguments := {
  adv_query : string;
  adv_author : string;
  adv_title : string;
  adv_abstract : string;
  adv_category : string;
  adv_exclude_category : string;
  adv_start_date : string;
  adv_end_date : string;
  adv_max_results : Z;
  adv_sort_by : string;
  adv_sort_order : string
}.

(** [query_parts] of [advanced_search] *)
Definition query_parts (a : AdvancedArguments) : list string :=
  (if nonempty (adv_query a) then [adv_query a] else [])
  ++ (if nonempty (adv_author a) then [String.append "au:" (adv_author a)] else [])
  ++ (if nonempty (adv_title a) then [String.append "ti:" (adv_title a)] else [])
  ++ (if nonempty (adv_abstract a) then [String.append "abs:" (adv_abstract a)] else [])
  ++ (if nonempty (adv_category a) then [String.append "cat:" (adv_category a)] else [])
  ++ (if nonempty (adv_exclude_category a)
      then [String.append "ANDNOT cat:" (adv_exclude_category a)] else [])
  ++ (if nonempty (adv_start_date a) && nonempty (adv_end_date a)
      then [("submittedDate:[" ++ adv_start_date a ++ " TO " ++ adv_end_date a ++ "]")%string]
      else if nonempty (adv_start_date a)
      then [("submittedDate:[" ++ adv_start_date a ++ " TO *]")%string]
      else if nonempty (adv_end_date a)
      then [("submittedDate:[* TO " ++ adv_end_date a ++ "]")%string]
      else []).

(** One of the eight text parameters is given. *)
Definition any_given (a : AdvancedArguments) : bool :=
  nonempty (adv_query a) || nonempty (adv_author a) || nonempty (adv_title a)
  || nonempty (adv_abstract a) || nonempty (adv_category a)
  || nonempty (adv_exclude_category a)
  || nonempty (adv_start_date a) || nonempty (adv_end_date a).

(** The search that [advanced_search] makes. *)
Definition advanced_search_request (a : AdvancedArguments) : Search :=
  {| query := match query_parts a with
              | [] => "*"
              | parts => String.concat " AND " parts
              end;
     id_list := [];
     max_results := Some (Z.min (adv_max_results a) 200);
     sort_by := sort_criteria (adv_sort_by a);
     sort_order := sort_order_enum (adv_sort_order a) |}.

(** Counting: [counts[category] = counts.get(category, 0) + 1] for every
    category of every result. *)
Definition count_category (counts : dict Z) (category : string) : dict Z :=
  dict_set counts category (default 0 (dict_get counts category) + 1).

Definition count_result (counts : dict Z) (r : Result.t) : dict Z :=
  fold_left count_category (Result.categories r) counts.

Definition count_results (counts : dict Z) (rs : list Result.t) : dict Z :=
  fold_left count_result rs counts.

(** [sorted(items, key=lambda x: x[1], reverse=True)]: by falling count,
    items of equal count in their order. *)
Fixpoint insert_desc (e : string * Z) (l : dict Z) : dict Z :=
  match l with
  | [] => [e]
  | y :: l' => if snd e <? snd y then y :: insert_desc e l' else e :: y :: l'
  end.

Definition sorted_desc (l : dict Z) : dict Z := fold_right insert_desc [] l.

(** The last two statements of [get_trending_categories]. *)
Definition trending (counts : dict Z) (min_papers : Z) : dict Z :=
  sorted_desc (List.filter (fun e => min_papers <=? snd e) counts).

(** [search.results()] for a search, and the two dates of a query for a
    number of days back, as [strftime] writes them, or the exception of
    the date arithmetic. *)

Section Service.
Variable results : Search -> yielded.
Variable date_range : Z -> string + string.
Variable paper_error : Result.t -> string.

Definition advanced_search (a : AdvancedArguments) : string + list PaperInfo.t :=
  let found := results (advanced_search_request a) in
  collect paper_error (fst found) (snd found).

Definition date_search (range : string) (limit : Z) : Search :=
  {| query := ("submittedDate:[" ++ range ++ "]")%string;
     id_list := [];
     max_results := Some limit;
     sort_by := SubmittedDate;
     sort_order := Descending |}.

Definition get_trending_categories (days_back min_papers : Z) : string + dict Z :=
  match date_range days_back with
  | inl e => inl e
  | inr range =>
      let main := results (date_search range 500) in
      let counts := count_results [] (fst main) in
      match snd main with
      | None => inr (trending counts min_papers)
      | Some _ =>
          match date_range 7 with
          | inl e => inl e
          | inr recent =>
              let fallback := results (date_search recent 200) in
              let counts := count_results counts (fst fallback) in
              match snd fallback with
              | None => inr (trending counts min_papers)
              | Some _ => inr []
              end
          end
      end
  end.

(** The results whose categories [get_trending_categories] has counted
    when it returns. *)
Definition counted (days_back : Z) : list Result.t :=
  match date_range days_back with
  | inl _ => []
  | inr range =>
      let main := results (date_search range 500) in
      match snd main with
      | None => fst main
      | Some _ =>
          match date_range 7 with
          | inl _ => fst main
          | inr recent => fst main ++ fst (results (date_search recent 200))
          end
      end
  end.

End Service.

(** ** Counting categories *)

(** The categories of a list of results, as the two loops meet them. *)
Definition categories_of (rs : list Result.t) : list string :=
  concat (map Result.categories rs).

(** How often a category is met. *)
Definition occurrences (c : string) (rs : list Result.t) : Z :=
  Z.of_nat (count_occ string_dec (categories_of rs) c).

(** [counts.get(c, 0)] *)
Definition tally (counts : dict Z) (c : string) : Z :=
  default 0 (dict_get counts c).

Definition positive (counts : dict Z) : Prop :=
  forall c n, dict_get counts c = Some n -> 0 < n.

Definition falling (d : dict Z) : Prop :=
  StronglySorted (fun x y => snd y <= snd x) d.

Definition has_count (n : Z) (e : string * Z) : bool := snd e =? n.

(** Two results for the examples. *)
Definition sample_result (id : string) (cats : list string) (pdf : option string)
    : Result.t :=
  {| Result.entry_id := id;
     Result.title := "A title";
     Result.authors := ["A. Author"];
     Result.summary := "An abstract";
     Result.published := Datetime "2024-01-15T00:00:00+00:00";
     Result.updated := Datetime "2024-01-20T00:00:00+00:00";
     Result.categories := cats;
     Result.pdf_url := pdf;
     Result.primary_category := List.head cats;
     Result.journal_ref := None;
     Result.doi := None;
     Result.comment := None |}.

Definition paper_A : Result.t :=
  sample_result "http://arxiv.org/abs/2301.12345v2" ["cs.AI"; "cs.LG"]
    (Some "http://arxiv.org/pdf/2301.12345v2").

Definition paper_B : Result.t :=
  sample_result "http://arxiv.org/abs/2302.00001v1" ["cs.LG"]
    (Some "http://arxiv.org/pdf/2302.00001v1").

Definition paper_C : Result.t :=
  sample_result "http://arxiv.org/abs/2302.00002v1" ["math.CO"; "cs.AI"] None.

Definition sample_error (r : Result.t) : string :=
  ("1 validation error for PaperInfo: pdf_url of " ++ Result.entry_id r)%string.

Definition sample_dates (days : Z) : string + string :=
  if days =? 7 then inr "20240124 TO 20240131" else inr "20240101 TO 20240131".

(** A library that answers every query with the first two papers. *)
Definition steady_results (s : Search) : yielded := ([paper_A; paper_B], None).

(** A library whose query for 500 results breaks off after two papers and
    whose query for 200 results yields three. *)
Definition broken_results (s : Search) : yielded :=
  if decide (max_results s = Some 500) then ([paper_A; paper_B], Some "HTTP 500")
  else ([paper_B; paper_C; paper_A], None).

(** A library whose results bring up three categories, two of them
    twice. *)
Definition tied_results (s : Search) : yielded := ([paper_B; paper_C; paper_A], None).

Definition arguments_given : AdvancedArguments :=
  {| adv_query := ""; adv_author := "Knuth"; adv_title := ""; adv_abstract := "";
     adv_category := "cs.DS"; adv_exclude_category := "math.CO";
     adv_start_date := "20240101"; adv_end_date := "";
     adv_max_results := 25; adv_sort_by := "relevance"; adv_sort_order := "desc" |}.

Definition arguments_none : AdvancedArguments :=
  {| adv_query := ""; adv_author := ""; adv_title := ""; adv_abstract := "";
     adv_category := ""; adv_exclude_category := "";
     adv_start_date := ""; adv_end_date := "";
     adv_max_results := 1000; adv_sort_by := "relevance"; adv_sort_order := "desc" |}.

(** * Proofs *)

(** ** [_camel_to_snake] on the field names *)

Example camel_next : _camel_to_snake "nextThoughtNeeded" = "next_thought_needed".
Proof. reflexivity. Qed.

Example camel_id : _camel_to_snake "branchId" = "branch_id".
Proof. reflexivity. Qed.

Example camel_acronym : _camel_to_snake "getHTTPResponseCode2X" = "get_http_response_code2_x".
Proof. reflexivity. Qed.

Example camel_snake_fixed : _camel_to_snake "branch_from_thought" = "branch_from_thought".
Proof. reflexivity. Qed.

(** ** The validator without the heap *)

Section Validation.
Context `{Library}.

Lemma validate_parse input_data h :
  _validate_thought_data input_data h =
  match parse input_data with
  | inr td => new_record td h
  | inl e => (inl ("Invalid thought data: " ++ e)%string, h)
  end.
Proof.
  unfold _validate_thought_data, try_except, parse.
  destruct input_data as [items|v]; [|reflexivity].
  destruct (snake_items items []) as [key|data]; [reflexivity|].
  destruct (ThoughtData_fields data); reflexivity.
Qed.

End Validation.

(** ** Running the primitives *)

Lemma run_bind {A B} (m : M A) (f : A -> M B) h a h' :
  m h = (inr a, h') -> (x <- m ;; f x) h = f a h'.
Proof. unfold bind. intros ->. reflexivity. Qed.

Lemma run_bind_raise {A B} (m : M A) (f : A -> M B) h e h' :
  m h = (inl e, h') -> (x <- m ;; f x) h = (inl e, h').
Proof. unfold bind. intros ->. reflexivity. Qed.

Lemma run_load_record (r : addr) h td :
  recs h !! r = Some td -> load_record r h = (inr td, h).
Proof. unfold load_record. intros ->. reflexivity. Qed.

Lemma run_load_list (l : addr) h items :
  lsts h !! l = Some items -> load_list l h = (inr items, h).
Proof. unfold load_list. intros ->. reflexivity. Qed.

Lemma run_load_dict (d : addr) h entries :
  dcts h !! d = Some entries -> load_dict d h = (inr entries, h).
Proof. unfold load_dict. intros ->. reflexivity. Qed.

Lemma run_list_append (l x : addr) h items :
  lsts h !! l = Some items ->
  list_append l x h =
  (inr tt, {| recs := recs h; lsts := <[l := items ++ [x]]> (lsts h); dcts := dcts h |}).
Proof.
  intros Hl. unfold list_append.
  rewrite (run_bind _ _ _ _ _ (run_load_list _ _ _ Hl)).
  unfold store_list. rewrite Hl. reflexivity.
Qed.

Lemma run_list_len (l : addr) h items :
  lsts h !! l = Some items -> list_len l h = (inr (Z.of_nat (length items)), h).
Proof.
  intros Hl. unfold list_len.
  rewrite (run_bind _ _ _ _ _ (run_load_list _ _ _ Hl)). reflexivity.
Qed.

Lemma lookup_the_list h (l : addr) : (l < length (lsts h))%nat -> lsts h !! l = Some (the_list h l).
Proof.
  intros Hl. unfold the_list.
  destruct (lsts h !! l) eqn:E; [reflexivity|].
  apply lookup_ge_None in E. lia.
Qed.

Lemma lookup_branch_dict self h :
  (branches self < length (dcts h))%nat -> dcts h !! branches self = Some (branch_dict self h).
Proof.
  intros Hl. unfold branch_dict.
  destruct (dcts h !! branches self) eqn:E; [reflexivity|].
  apply lookup_ge_None in E. lia.
Qed.

Lemma run_dict_contains (d : addr) k h entries :
  dcts h !! d = Some entries -> dict_contains d k h = (inr (dict_has entries k), h).
Proof.
  intros Hd. unfold dict_contains.
  rewrite (run_bind _ _ _ _ _ (run_load_dict _ _ _ Hd)). reflexivity.
Qed.

Lemma run_dict_getitem (d : addr) k h entries a :
  dcts h !! d = Some entries -> dict_get entries k = Some a ->
  dict_getitem d k h = (inr a, h).
Proof.
  intros Hd Hk. unfold dict_getitem.
  rewrite (run_bind _ _ _ _ _ (run_load_dict _ _ _ Hd)), Hk. reflexivity.
Qed.

Lemma run_dict_setitem (d : addr) k (a : addr) h entries :
  dcts h !! d = Some entries ->
  dict_setitem d k a h =
  (inr tt, {| recs := recs h; lsts := lsts h; dcts := <[d := dict_set entries k a]> (dcts h) |}).
Proof.
  intros Hd. unfold dict_setitem.
  rewrite (run_bind _ _ _ _ _ (run_load_dict _ _ _ Hd)).
  unfold store_dict. rewrite Hd. reflexivity.
Qed.

Lemma run_dict_key_list (d : addr) h entries :
  dcts h !! d = Some entries -> dict_key_list d h = (inr (dict_keys entries), h).
Proof.
  intros Hd. unfold dict_key_list.
  rewrite (run_bind _ _ _ _ _ (run_load_dict _ _ _ Hd)). reflexivity.
Qed.

Lemma run_dict_len (d : addr) h entries :
  dcts h !! d = Some entries -> dict_len d h = (inr (Z.of_nat (length entries)), h).
Proof.
  intros Hd. unfold dict_len.
  rewrite (run_bind _ _ _ _ _ (run_load_dict _ _ _ Hd)). reflexivity.
Qed.

Lemma the_list_insert_eq h h' (a : addr) items :
  lsts h' = <[a := items]> (lsts h) -> (a < length (lsts h))%nat ->
  the_list h' a = items.
Proof.
  intros Heq Ha. unfold the_list. rewrite Heq, list_lookup_insert_eq by exact Ha. reflexivity.
Qed.

Lemma the_list_insert_ne h h' (a a' : addr) items :
  lsts h' = <[a := items]> (lsts h) -> a' <> a ->
  the_list h' a' = the_list h a'.
Proof.
  intros Heq Hne. unfold the_list. rewrite Heq, list_lookup_insert_ne by congruence. reflexivity.
Qed.

(** ** Dictionaries *)

Section DictionaryFacts.
Context {V : Type}.
Implicit Types (d : dict V) (k : string) (v : V).

Lemma dict_get_set_eq d k v : dict_get (dict_set d k v) k = Some v.
Proof.
  induction d as [|[k' v'] d IH]; simpl.
  - rewrite String.eqb_refl. reflexivity.
  - destruct (String.eqb k' k) eqn:E; simpl; rewrite E; [reflexivity|exact IH].
Qed.

Lemma dict_get_set_ne d k k' v :
  k <> k' -> dict_get (dict_set d k v) k' = dict_get d k'.
Proof.
  intros Hne. induction d as [|[k0 v0] d IH]; simpl.
  - apply String.eqb_neq in Hne. rewrite Hne. reflexivity.
  - destruct (String.eqb k0 k) eqn:E; simpl.
    + apply String.eqb_eq in E. subst k0.
      apply String.eqb_neq in Hne. rewrite Hne. reflexivity.
    + rewrite IH. reflexivity.
Qed.

Lemma dict_get_None d k : dict_get d k = None <-> k ∉ map fst d.
Proof.
  induction d as [|[k' v'] d IH]; simpl.
  - split; [intros _; apply not_elem_of_nil|reflexivity].
  - rewrite not_elem_of_cons. destruct (String.eqb k' k) eqn:E.
    + apply String.eqb_eq in E. subst. split; [discriminate|intros [? _]; congruence].
    + apply String.eqb_neq in E. rewrite IH. split; [intros ?; split; congruence|tauto].
Qed.

Lemma dict_get_Some d k v : dict_get d k = Some v -> (k, v) ∈ d.
Proof.
  induction d as [|[k' v'] d IH]; simpl; [discriminate|].
  destruct (String.eqb k' k) eqn:E.
  - apply String.eqb_eq in E. intros [= ->]. subst. apply list_elem_of_here.
  - intros Hg. apply list_elem_of_further, IH, Hg.
Qed.

Lemma dict_set_absent d k v :
  dict_get d k = None -> dict_set d k v = d ++ [(k, v)].
Proof.
  induction d as [|[k' v'] d IH]; simpl; [reflexivity|].
  destruct (String.eqb k' k); [discriminate|].
  intros Hg. rewrite IH by exact Hg. reflexivity.
Qed.

End DictionaryFacts.

(** Appending to the list behind a key, seen through the lists the
    addresses hold before ([f]) and after ([g]) the update. *)
Lemma lists_after_append (f g : addr -> list addr) (d : dict addr) b a r :
  NoDup (map snd d) ->
  dict_get d b = Some a ->
  g a = f a ++ [r] ->
  (forall a', a' ∈ map snd d -> a' <> a -> g a' = f a') ->
  map (fun e => (fst e, g (snd e))) d =
  dict_append (map (fun e => (fst e, f (snd e))) d) b r.
Proof.
  intros Hnd Hget Ha Hother.
  induction d as [|[k a0] d IH]; simpl in *; [discriminate|].
  apply NoDup_cons in Hnd as [Hnotin Hnd].
  destruct (String.eqb k b) eqn:E.
  - injection Hget as ->. rewrite Ha. f_equal.
    apply map_ext_in. intros [k' a'] Hin%list_elem_of_In. simpl. f_equal.
    apply Hother.
    + apply list_elem_of_further, list_elem_of_fmap. exists (k', a'). split; [reflexivity|exact Hin].
    + intros ->. apply Hnotin, list_elem_of_fmap. exists (k', a). split; [reflexivity|exact Hin].
  - rewrite Hother.
    + f_equal. apply IH; [exact Hnd|exact Hget|].
      intros a' Hin Hne. apply Hother; [apply list_elem_of_further, Hin|exact Hne].
    + apply list_elem_of_here.
    + intros ->. apply Hnotin.
      apply dict_get_Some in Hget.
      apply list_elem_of_fmap. exists (b, a). split; [reflexivity|exact Hget].
Qed.

Lemma lists_after_new (f g : addr -> list addr) (d : dict addr) b a r :
  dict_get d b = None ->
  g a = [r] ->
  (forall a', a' ∈ map snd d -> g a' = f a') ->
  map (fun e => (fst e, g (snd e))) (dict_set d b a) =
  dict_append (map (fun e => (fst e, f (snd e))) d) b r.
Proof.
  intros Hget Ha Hother.
  induction d as [|[k a0] d IH]; simpl in *.
  - rewrite Ha. reflexivity.
  - destruct (String.eqb k b) eqn:E; [discriminate|]. simpl.
    rewrite Hother by apply list_elem_of_here. f_equal.
    apply IH; [exact Hget|].
    intros a' Hin. apply Hother, list_elem_of_further, Hin.
Qed.

(** ** Running [process_thought] *)

Section Calls.
Context `{Library}.

Lemma registers_adjusted td : registers (adjusted td) = registers td.
Proof. unfold adjusted, registers. destruct (_ <? _); reflexivity. Qed.

(** The first half of the call: the new object, with its estimate
    raised, is at the end of the history. *)
Lemma run_store_record self input_data h td {A} (k : addr -> M A) :
  (thought_history self < length (lsts h))%nat ->
  parse input_data = inr td ->
  (validated_input <- _validate_thought_data input_data ;;
   v <- load_record validated_input ;;
   (if total_thoughts v <? thought_number v
    then set_total_thoughts validated_input (thought_number v)
    else ret tt) ;;
   list_append (thought_history self) validated_input ;;
   k validated_input) h =
  k (length (recs h)) (after_store self h (adjusted td)).
Proof.
  intros Hth Hparse.
  assert (Hnew : _validate_thought_data input_data h =
                 (inr (length (recs h)),
                  {| recs := recs h ++ [td]; lsts := lsts h; dcts := dcts h |})).
  { rewrite validate_parse, Hparse. reflexivity. }
  rewrite (run_bind _ _ _ _ _ Hnew).
  set (h1 := {| recs := recs h ++ [td]; lsts := lsts h; dcts := dcts h |}).
  assert (Hat : forall x, (recs h ++ [x]) !! length (recs h) = Some x).
  { intros x. apply list_lookup_middle. reflexivity. }
  rewrite (run_bind _ _ _ _ _ (run_load_record _ h1 _ (Hat td))).
  assert (Hadj : (if total_thoughts td <? thought_number td
                  then set_total_thoughts (length (recs h)) (thought_number td)
                  else ret tt) h1 =
                 (inr tt, {| recs := recs h ++ [adjusted td]; lsts := lsts h; dcts := dcts h |})).
  { unfold adjusted. destruct (total_thoughts td <? thought_number td); [|reflexivity].
    unfold set_total_thoughts.
    rewrite (run_bind _ _ _ _ _ (run_load_record _ h1 _ (Hat td))).
    unfold store_record, h1. cbn [recs lsts dcts]. rewrite (Hat td).
    rewrite insert_app_r_alt by reflexivity.
    rewrite Nat.sub_diag. reflexivity. }
  rewrite (run_bind _ _ _ _ _ Hadj).
  pose proof (lookup_the_list h _ Hth) as Hl.
  set (h2 := {| recs := recs h ++ [adjusted td]; lsts := lsts h; dcts := dcts h |}).
  rewrite (run_bind _ _ _ _ _ (run_list_append (thought_history self) _ h2 _ Hl)).
  reflexivity.
Qed.

Lemma wf_after_store self h td :
  wf self h -> wf self (after_store self h td).
Proof.
  intros [Hth Hbr Hk Hl Hsep Hrec].
  assert (Hd : branch_dict self (after_store self h td) = branch_dict self h)
    by reflexivity.
  split; rewrite ?Hd; cbn [recs lsts dcts after_store]; rewrite ?length_insert;
    try assumption.
  unfold history at 1, the_list. cbn [lsts after_store].
  rewrite list_lookup_insert_eq by exact Hth. cbn [default].
  apply Forall_app. split.
  - eapply Forall_impl; [exact Hrec|]. intros r Hr. cbn beta in *. rewrite length_app. lia.
  - apply Forall_singleton. rewrite length_app. cbn [length]. lia.
Qed.

(** The second half: the branch index. *)
Lemma run_register self h (r : addr) v :
  wf self h ->
  let h' := after_register self h r v in
    (if truthy_int (branch_from_thought v) && truthy_str (branch_id v)
     then
       match branch_id v with
       | Some b =>
           known <- dict_contains (branches self) b ;;
           (if known then ret tt
            else l <- new_list [] ;; dict_setitem (branches self) b l) ;;
           l <- dict_getitem (branches self) b ;;
           list_append l r
       | None => ret tt
       end
     else ret tt) h = (inr tt, h')
    /\ recs h' = recs h
    /\ history self h' = history self h
    /\ branch_lists self h' = register (branch_lists self h) r v
    /\ wf self h'.
Proof.
  intros Hwf. pose proof Hwf as [Hth Hbr Hk Hl Hsep Hrec].
  unfold after_register, register, registers.
  destruct (truthy_int (branch_from_thought v) && truthy_str (branch_id v));
    [|repeat split; assumption].
  destruct (branch_id v) as [b|]; [|repeat split; assumption].
  pose proof (lookup_branch_dict self h Hbr) as Hd.
  rewrite (run_bind _ _ _ _ _ (run_dict_contains _ b _ _ Hd)).
  destruct (dict_get (branch_dict self h) b) as [a|] eqn:Hget.
  - (* the branch is known *)
    unfold dict_has. rewrite Hget.
    rewrite (run_bind _ _ _ _ _ (eq_refl : ret tt h = (inr tt, h))).
    rewrite (run_bind _ _ _ _ _ (run_dict_getitem _ b _ _ _ Hd Hget)).
    assert (Hin : a ∈ map snd (branch_dict self h)).
    { apply list_elem_of_fmap. exists (b, a). split; [reflexivity|].
      apply dict_get_Some, Hget. }
    pose proof (proj1 (Forall_forall _ _) Hsep a Hin) as [Ha Hne].
    rewrite (run_list_append a r h _ (lookup_the_list h a Ha)).
    cbn zeta. split; [reflexivity|].
    set (h' := {| recs := recs h; lsts := <[a := the_list h a ++ [r]]> (lsts h);
                  dcts := dcts h |}).
    assert (Hhist : history self h' = history self h).
    { apply (the_list_insert_ne h h' a _ (the_list h a ++ [r])); [reflexivity|congruence]. }
    assert (Hdict : branch_dict self h' = branch_dict self h) by reflexivity.
    split; [reflexivity|]. split; [exact Hhist|]. split.
    + unfold branch_lists. rewrite Hdict.
      apply lists_after_append with (a := a); [exact Hl|exact Hget| |].
      * apply (the_list_insert_eq h h' a); [reflexivity|exact Ha].
      * intros a' _ Hne'. apply (the_list_insert_ne h h' a _ (the_list h a ++ [r])); [reflexivity|exact Hne'].
    + split; rewrite ?Hdict, ?Hhist; cbn [recs lsts dcts h']; rewrite ?length_insert;
        assumption.
  - (* the branch is new *)
    unfold dict_has. rewrite Hget.
    set (a := length (lsts h)).
    set (h1 := {| recs := recs h; lsts := lsts h ++ [[]]; dcts := dcts h |}).
    set (h2 := {| recs := recs h; lsts := lsts h ++ [[]];
                  dcts := <[branches self := dict_set (branch_dict self h) b a]> (dcts h) |}).
    set (h3 := {| recs := recs h; lsts := <[a := [] ++ [r]]> (lsts h ++ [[]]);
                  dcts := <[branches self := dict_set (branch_dict self h) b a]> (dcts h) |}).
    assert (Hnew : (l <- new_list [] ;; dict_setitem (branches self) b l) h = (inr tt, h2)).
    { rewrite (run_bind _ _ _ _ _ (eq_refl : new_list [] h = (inr a, h1))).
      apply (run_dict_setitem _ b a h1 _ Hd). }
    rewrite (run_bind _ _ _ _ _ Hnew).
    assert (Hd2 : dcts h2 !! branches self = Some (dict_set (branch_dict self h) b a)).
    { apply list_lookup_insert_eq, Hbr. }
    rewrite (run_bind _ _ _ _ _
               (run_dict_getitem _ b h2 _ a Hd2 (dict_get_set_eq _ _ _))).
    assert (Hla : lsts h2 !! a = Some []).
    { apply list_lookup_middle. reflexivity. }
    rewrite (run_list_append a r h2 _ Hla).
    cbn zeta. fold a h3. split; [reflexivity|].
    assert (Hold : forall a', (a' < length (lsts h))%nat -> the_list h3 a' = the_list h a').
    { intros a' Ha'. unfold the_list, h3. cbn [lsts].
      rewrite list_lookup_insert_ne by (unfold a; lia).
      rewrite lookup_app_l by exact Ha'. reflexivity. }
    assert (Hdict : branch_dict self h3 = dict_set (branch_dict self h) b a).
    { unfold branch_dict, h3. cbn [dcts]. rewrite list_lookup_insert_eq by exact Hbr. reflexivity. }
    assert (Hhist : history self h3 = history self h) by (apply Hold, Hth).
    assert (Hlt : forall a', a' ∈ map snd (branch_dict self h) -> (a' < length (lsts h))%nat).
    { intros a' Hin. apply (proj1 (Forall_forall _ _) Hsep a' Hin). }
    split; [reflexivity|]. split; [exact Hhist|]. split.
    + unfold branch_lists. rewrite Hdict.
      apply lists_after_new; [exact Hget| |].
      * unfold the_list, h3. cbn [lsts].
        rewrite list_lookup_insert_eq; [reflexivity|]. rewrite length_app. cbn. unfold a. lia.
      * intros a' Hin. apply Hold, Hlt, Hin.
    + assert (Hlen : length (lsts h3) = S (length (lsts h))).
      { unfold h3. cbn [lsts]. rewrite length_insert, length_app. cbn. lia. }
      split; rewrite ?Hdict, ?Hhist, ?Hlen; cbn [recs dcts h3]; rewrite ?length_insert;
        try assumption; try lia.
      * rewrite (dict_set_absent _ _ _ Hget), map_app. cbn [map fst].
        apply NoDup_app. split; [exact Hk|]. split; [|apply NoDup_singleton].
        intros k Hin ->%list_elem_of_singleton.
        apply (proj1 (dict_get_None _ _) Hget), Hin.
      * rewrite (dict_set_absent _ _ _ Hget), map_app. cbn [map snd].
        apply NoDup_app. split; [exact Hl|]. split; [|apply NoDup_singleton].
        intros a' Hin ->%list_elem_of_singleton.
        apply Hlt in Hin. unfold a in Hin. lia.
      * rewrite (dict_set_absent _ _ _ Hget), map_app. cbn [map snd].
        apply Forall_app. split.
        -- eapply Forall_impl; [exact Hsep|]. cbn beta. intros a' [? ?]. split; [lia|assumption].
        -- apply Forall_singleton. unfold a. split; lia.
Qed.

Theorem process_thought_accepts self input_data h td :
  wf self h ->
  parse input_data = inr td ->
  let v := adjusted td in
  let h' := after_call self h td in
  process_thought self input_data h =
    (inr (accepted_response v (dict_keys (branch_dict self h'))
            (Z.of_nat (length (history self h')))), h')
  /\ recs h' = recs h ++ [v]
  /\ history self h' = history self h ++ [length (recs h)]
  /\ branch_lists self h' = register (branch_lists self h) (length (recs h)) v
  /\ wf self h'.
Proof.
  intros Hwf Hparse. cbv zeta.
  pose proof (wf_after_store self h (adjusted td) Hwf) as Hwf1.
  destruct (run_register self (after_store self h (adjusted td)) (length (recs h))
              (adjusted td) Hwf1)
    as (Hrun & Hrecs & Hhist & Hlists & Hwf').
  assert (Hsame : branch_lists self (after_store self h (adjusted td)) =
                  branch_lists self h).
  { unfold branch_lists.
    change (branch_dict self (after_store self h (adjusted td)))
      with (branch_dict self h).
    apply map_ext_in. intros [k a] Hin%list_elem_of_In. cbn [fst snd]. f_equal.
    apply (the_list_insert_ne h _ (thought_history self) a
             (history self h ++ [length (recs h)])); [reflexivity|].
    destruct Hwf as [_ _ _ _ Hsep _].
    apply (proj1 (Forall_forall _ _) Hsep a).
    apply list_elem_of_fmap. exists (k, a). split; [reflexivity|exact Hin]. }
  rewrite Hsame in Hlists. fold (after_call self h td) in *.
  assert (Hhist' : history self (after_call self h td) =
                   history self h ++ [length (recs h)]).
  { rewrite Hhist. unfold history at 1, the_list, after_store. cbn [lsts].
    rewrite list_lookup_insert_eq by apply Hwf. reflexivity. }
  split; [|split; [exact Hrecs|split; [exact Hhist'|split; [exact Hlists|exact Hwf']]]].
  unfold process_thought, try_except.
  rewrite (run_store_record self input_data h td _ (wf_history _ _ Hwf) Hparse).
  assert (Hv1 : recs (after_store self h (adjusted td)) !! length (recs h) =
                Some (adjusted td)).
  { apply list_lookup_middle. reflexivity. }
  rewrite (run_bind _ _ _ _ _ (run_load_record _ _ _ Hv1)).
  rewrite (run_bind _ _ _ _ _ Hrun).
  assert (Hv : recs (after_call self h td) !! length (recs h) = Some (adjusted td)).
  { rewrite Hrecs. apply list_lookup_middle. reflexivity. }
  rewrite (run_bind _ _ _ _ _ (run_load_record _ _ _ Hv)).
  rewrite (run_bind _ _ _ _ _
             (run_dict_key_list _ _ _
                (lookup_branch_dict self _ (wf_branches _ _ Hwf')))).
  rewrite (run_bind _ _ _ _ _
             (run_list_len _ _ _ (lookup_the_list _ _ (wf_history _ _ Hwf')))).
  reflexivity.
Qed.

Theorem process_thought_rejects self input_data h e :
  (thought_history self < length (lsts h))%nat ->
  parse input_data = inl e ->
  process_thought self input_data h =
    (inr (failed (Z.of_nat (length (history self h)))
            ("Invalid thought data: " ++ e)%string), h).
Proof.
  intros Hth Hparse. unfold process_thought, try_except.
  assert (Hv : _validate_thought_data input_data h =
               (inl ("Invalid thought data: " ++ e)%string, h)).
  { rewrite validate_parse, Hparse. reflexivity. }
  rewrite (run_bind_raise _ _ _ _ _ Hv).
  rewrite (run_bind _ _ _ _ _ (run_list_len _ h _ (lookup_the_list h _ Hth))).
  reflexivity.
Qed.

End Calls.

(** ** The branch index, key by key *)

Lemma dict_append_get d b r b' :
  dict_get (dict_append d b r) b' =
  if String.eqb b b' then Some (default [] (dict_get d b) ++ [r]) else dict_get d b'.
Proof.
  induction d as [|[k l] d IH]; cbn [dict_append dict_get].
  - destruct (String.eqb b b'); reflexivity.
  - destruct (String.eqb k b) eqn:E; cbn [dict_get].
    + apply String.eqb_eq in E. subst k.
      destruct (String.eqb b b'); reflexivity.
    + rewrite IH. destruct (String.eqb b b') eqn:E'; [|reflexivity].
      apply String.eqb_eq in E'. subst b'. rewrite E. reflexivity.
Qed.

Lemma dict_append_keys d b r :
  dict_keys (dict_append d b r) =
  if bool_decide (b ∈ dict_keys d) then dict_keys d else dict_keys d ++ [b].
Proof.
  unfold dict_keys. induction d as [|[k l] d IH]; cbn [dict_append map fst].
  - rewrite bool_decide_eq_false_2 by apply not_elem_of_nil. reflexivity.
  - destruct (String.eqb k b) eqn:E; cbn [map fst].
    + apply String.eqb_eq in E. subst k.
      rewrite bool_decide_eq_true_2 by apply list_elem_of_here. reflexivity.
    + apply String.eqb_neq in E. rewrite IH.
      destruct (bool_decide (b ∈ map fst d)) eqn:Hin.
      * apply bool_decide_eq_true_1 in Hin.
        rewrite bool_decide_eq_true_2 by (apply list_elem_of_further, Hin). reflexivity.
      * apply bool_decide_eq_false_1 in Hin.
        rewrite bool_decide_eq_false_2; [reflexivity|].
        rewrite elem_of_cons. intros [-> | ?]; [apply E; reflexivity|apply Hin; assumption].
Qed.

Lemma index_snoc R hist r : index R (hist ++ [r]) = enter R (index R hist) r.
Proof. unfold index. rewrite fold_left_app. reflexivity. Qed.

(** [branches[b]] is the part of the history registered under [b], and
    [b] is a key when that part is not empty. *)
Lemma index_get R hist b :
  dict_get (index R hist) b =
  match List.filter (registered_under R b) hist with
  | [] => None
  | l => Some l
  end.
Proof.
  induction hist as [|r hist IH] using rev_ind; [reflexivity|].
  rewrite index_snoc, List.filter_app. cbn [List.filter].
  unfold enter, register, registered_under at 2.
  destruct (R !! r) as [v|]; [destruct (registers v) as [b'|]|].
  - rewrite dict_append_get. destruct (String.eqb b' b) eqn:E.
    + apply String.eqb_eq in E. subst b'. rewrite IH.
      destruct (List.filter _ hist); reflexivity.
    + rewrite app_nil_r. exact IH.
  - rewrite app_nil_r. exact IH.
  - rewrite app_nil_r. exact IH.
Qed.

Lemma first_seen_snoc ks k :
  first_seen (ks ++ [k]) =
  if bool_decide (k ∈ first_seen ks) then first_seen ks else first_seen ks ++ [k].
Proof. unfold first_seen. rewrite fold_left_app. reflexivity. Qed.

Lemma index_keys R hist : dict_keys (index R hist) = first_seen (branch_ids R hist).
Proof.
  induction hist as [|r hist IH] using rev_ind; [reflexivity|].
  rewrite index_snoc. unfold branch_ids. rewrite omap_app.
  fold (branch_ids R hist). simpl (omap _ [r]). unfold enter, register.
  destruct (R !! r) as [v|]; [destruct (registers v) as [b|]|].
  - rewrite dict_append_keys, IH, first_seen_snoc. reflexivity.
  - rewrite app_nil_r. exact IH.
  - rewrite app_nil_r. exact IH.
Qed.

Lemma first_seen_NoDup ks : NoDup (first_seen ks).
Proof.
  induction ks as [|k ks IH] using rev_ind; [apply NoDup_nil_2|].
  rewrite first_seen_snoc.
  destruct (bool_decide _) eqn:E; [exact IH|].
  apply bool_decide_eq_false_1 in E.
  apply NoDup_app. split; [exact IH|]. split; [|apply NoDup_singleton].
  intros x Hx ->%list_elem_of_singleton. exact (E Hx).
Qed.

Lemma first_seen_elem ks k : k ∈ first_seen ks <-> k ∈ ks.
Proof.
  induction ks as [|k' ks IH] using rev_ind; [reflexivity|].
  rewrite first_seen_snoc, elem_of_app, list_elem_of_singleton.
  destruct (bool_decide _) eqn:E.
  - apply bool_decide_eq_true_1 in E. rewrite IH. split; [tauto|].
    intros [?| ->]; [assumption|]. apply IH, E.
  - rewrite elem_of_app, list_elem_of_singleton, IH. reflexivity.
Qed.

(** ** Running the other methods *)

Lemma run_clear_history `{Library} self h :
  wf self h ->
  clear_history self h = (inr tt, after_clear self h)
  /\ history self (after_clear self h) = []
  /\ branch_dict self (after_clear self h) = []
  /\ wf self (after_clear self h).
Proof.
  intros [Hth Hbr Hk Hl Hsep Hrec].
  assert (Hhist : history self (after_clear self h) = []).
  { unfold history, the_list, after_clear. cbn [lsts].
    rewrite list_lookup_insert_eq by exact Hth. reflexivity. }
  assert (Hdict : branch_dict self (after_clear self h) = []).
  { unfold branch_dict, after_clear. cbn [dcts].
    rewrite list_lookup_insert_eq by exact Hbr. reflexivity. }
  split; [|split; [exact Hhist|split; [exact Hdict|]]].
  - unfold clear_history, list_clear, dict_clear.
    pose proof (lookup_the_list h _ Hth) as Hl1.
    pose proof (lookup_branch_dict self h Hbr) as Hd1.
    unfold bind at 1. unfold bind at 1. rewrite (run_load_list _ _ _ Hl1).
    unfold store_list. rewrite Hl1.
    unfold bind at 1. unfold load_dict. cbn [dcts]. rewrite Hd1. cbn [of_option ret].
    unfold store_dict. cbn [dcts recs lsts]. rewrite Hd1. reflexivity.
  - split; rewrite ?Hhist, ?Hdict; cbn [after_clear recs lsts dcts map];
      rewrite ?length_insert; try assumption; try constructor.
Qed.

Lemma run_init h :
  let self := {| thought_history := length (lsts h); branches := length (dcts h) |} in
  let h' := {| recs := recs h; lsts := lsts h ++ [[]]; dcts := dcts h ++ [[]] |} in
  init h = (inr self, h')
  /\ history self h' = []
  /\ branch_dict self h' = []
  /\ wf self h'.
Proof.
  cbv zeta.
  assert (Hhist : history {| thought_history := length (lsts h); branches := length (dcts h) |}
                    {| recs := recs h; lsts := lsts h ++ [[]]; dcts := dcts h ++ [[]] |} = []).
  { unfold history, the_list. cbn [lsts thought_history].
    rewrite list_lookup_middle by reflexivity. reflexivity. }
  assert (Hdict : branch_dict {| thought_history := length (lsts h); branches := length (dcts h) |}
                    {| recs := recs h; lsts := lsts h ++ [[]]; dcts := dcts h ++ [[]] |} = []).
  { unfold branch_dict. cbn [dcts branches].
    rewrite list_lookup_middle by reflexivity. reflexivity. }
  split; [reflexivity|]. split; [exact Hhist|]. split; [exact Hdict|].
  split; rewrite ?Hhist, ?Hdict; cbn [recs lsts dcts thought_history branches map];
    rewrite ?length_app; cbn [length]; try constructor; lia.
Qed.

Lemma omap_lookup_all (R : list ThoughtData) (rs : list addr) :
  Forall (fun r => (r < length R)%nat) rs ->
  last (omap (fun r => R !! r) rs) = (last rs ≫= fun r => R !! r)
  /\ length (omap (fun r => R !! r) rs) = length rs.
Proof.
  induction rs as [|r rs IH] using rev_ind; [split; reflexivity|].
  intros [Hrs Hr]%Forall_app. apply List.Forall_inv in Hr.
  destruct (lookup_lt_is_Some_2 _ _ Hr) as [v Hv].
  rewrite omap_app. simpl (omap _ [r]). rewrite Hv.
  rewrite !last_snoc, !length_app. cbn [mbind option_bind length].
  split; [symmetry; exact Hv|]. rewrite (proj2 (IH Hrs)). reflexivity.
Qed.

Lemma run_get_summary `{Library} self h :
  wf self h -> get_summary self h = (inr (summary_of self h), h).
Proof.
  intros [Hth Hbr Hk Hl Hsep Hrec].
  pose proof (lookup_the_list h _ Hth) as Hl1.
  pose proof (lookup_branch_dict self h Hbr) as Hd1.
  unfold get_summary.
  rewrite (run_bind _ _ _ _ _ (run_list_len _ _ _ Hl1)).
  rewrite (run_bind _ _ _ _ _ (run_dict_key_list _ _ _ Hd1)).
  rewrite (run_bind _ _ _ _ _ (run_dict_len _ _ _ Hd1)).
  rewrite (run_bind _ _ _ _ _ (run_load_list _ _ _ Hl1)).
  unfold summary_of, history_records.
  destruct (omap_lookup_all (recs h) (history self h) Hrec) as [Hlast _].
  rewrite Hlast. clear Hlast.
  change (the_list h (thought_history self)) with (history self h) in *.
  destruct (history self h) as [|x xs] eqn:Hh; [reflexivity|].
  destruct (last (x :: xs)) as [rl|] eqn:Hrl;
    [|apply last_None in Hrl; discriminate].
  assert (Hin : rl ∈ x :: xs).
  { apply last_Some in Hrl as [l' ->]. apply elem_of_app. right. apply list_elem_of_here. }
  pose proof (proj1 (Forall_forall _ _) Hrec rl Hin) as Hlt.
  destruct (lookup_lt_is_Some_2 _ _ Hlt) as [v Hv].
  assert (Hlastrun : list_last (thought_history self) h = (inr rl, h)).
  { unfold list_last. rewrite (run_bind _ _ _ _ _ (run_load_list _ _ _ Hl1)).
    rewrite Hrl. reflexivity. }
  assert (Hnum : (r <- list_last (thought_history self) ;;
                  v <- load_record r ;; ret (thought_number v)) h =
                 (inr (thought_number v), h)).
  { rewrite (run_bind _ _ _ _ _ Hlastrun).
    rewrite (run_bind _ _ _ _ _ (run_load_record _ _ _ Hv)). reflexivity. }
  assert (Htot : (r <- list_last (thought_history self) ;;
                  v <- load_record r ;; ret (total_thoughts v)) h =
                 (inr (total_thoughts v), h)).
  { rewrite (run_bind _ _ _ _ _ Hlastrun).
    rewrite (run_bind _ _ _ _ _ (run_load_record _ _ _ Hv)). reflexivity. }
  rewrite (run_bind _ _ _ _ _ Hnum), (run_bind _ _ _ _ _ Htot).
  cbn [mbind option_bind]. rewrite Hv. reflexivity.
Qed.

(** ** Every record of the validator meets the constraints *)

Section ValidFields.
Context `{Library}.

Lemma as_int_ge1_bound v z : as_int_ge1 v = Some z -> 1 <= z.
Proof.
  unfold as_int_ge1. destruct (as_int v) as [z'|]; [|discriminate].
  destruct (1 <=? z') eqn:E; [|discriminate]. intros [= <-]. lia.
Qed.

Lemma required_ge1 data k z : required as_int_ge1 data k = Some z -> 1 <= z.
Proof.
  unfold required. destruct (dict_get data k); [|discriminate]. apply as_int_ge1_bound.
Qed.

Lemma optional_ge1 data k z : optional as_int_ge1 data k = Some (Some z) -> 1 <= z.
Proof.
  unfold optional. destruct (dict_get data k) as [v|]; [|discriminate].
  destruct v; try discriminate;
    match goal with
    | |- context [as_int_ge1 ?x] =>
        destruct (as_int_ge1 x) eqn:E; [|discriminate];
        intros [= <-]; apply (as_int_ge1_bound _ _ E)
    end.
Qed.

(** What the constructor puts in each field. *)
Lemma ThoughtData_fields_Some data td :
  ThoughtData_fields data = Some td <->
  required as_str data "thought" = Some (thought td)
  /\ required as_int_ge1 data "thought_number" = Some (thought_number td)
  /\ required as_int_ge1 data "total_thoughts" = Some (total_thoughts td)
  /\ required as_bool data "next_thought_needed" = Some (next_thought_needed td)
  /\ optional as_bool data "is_revision" = Some (is_revision td)
  /\ optional as_int_ge1 data "revises_thought" = Some (revises_thought td)
  /\ optional as_int_ge1 data "branch_from_thought" = Some (branch_from_thought td)
  /\ optional as_str data "branch_id" = Some (branch_id td)
  /\ optional as_bool data "needs_more_thoughts" = Some (needs_more_thoughts td).
Proof.
  unfold ThoughtData_fields. split.
  - intros Hf.
    repeat match type of Hf with
           | match ?x with _ => _ end = _ => destruct x; [|discriminate]
           end.
    injection Hf as <-. cbn. repeat split.
  - intros (-> & -> & -> & -> & -> & -> & -> & -> & ->). destruct td; reflexivity.
Qed.

Lemma ThoughtData_fields_valid data td : ThoughtData_fields data = Some td -> valid td.
Proof.
  intros (_ & Hn & Ht & _ & _ & Hr & Hb & _)%ThoughtData_fields_Some.
  repeat split.
  - apply (required_ge1 _ _ _ Hn).
  - apply (required_ge1 _ _ _ Ht).
  - intros z Hz. rewrite Hz in Hr. apply (optional_ge1 _ _ _ Hr).
  - intros z Hz. rewrite Hz in Hb. apply (optional_ge1 _ _ _ Hb).
Qed.

Lemma parse_valid input_data td : parse input_data = inr td -> valid td.
Proof.
  unfold parse. destruct input_data as [items|]; [|discriminate].
  destruct (snake_items items []) as [|data]; [discriminate|].
  destruct (ThoughtData_fields data) eqn:E; [|discriminate].
  intros [= <-]. apply (ThoughtData_fields_valid _ _ E).
Qed.

End ValidFields.

Lemma adjusted_valid td : valid td -> valid (adjusted td).
Proof.
  unfold valid, adjusted. intros (Hn & Ht & Hr & Hb).
  destruct (total_thoughts td <? thought_number td); cbn; auto.
Qed.

(** On a validated record the two truth tests say: a branch point is given
    and the branch id is a string that is not empty. *)
Lemma registers_valid v b :
  valid v ->
  registers v = Some b <->
  branch_id v = Some b /\ branch_from_thought v <> None /\ b <> "".
Proof.
  intros (_ & _ & _ & Hb). unfold registers, truthy_int, truthy_str.
  destruct (branch_from_thought v) as [z|]; cbn.
  - specialize (Hb z eq_refl).
    replace (z =? 0) with false by (symmetry; apply Z.eqb_neq; lia). cbn.
    destruct (branch_id v) as [s|]; cbn.
    + destruct (String.eqb s "") eqn:E; cbn.
      * apply String.eqb_eq in E. subst s. split; [discriminate|].
        intros ([= <-] & _ & Hne). contradiction.
      * apply String.eqb_neq in E. split.
        -- intros [= <-]. repeat split; [discriminate|exact E].
        -- intros (Hs & _). exact Hs.
    + split; [discriminate|]. intros (? & _); discriminate.
  - split; [discriminate|]. intros (_ & Hne & _). contradiction.
Qed.

(** ** The methods keep the invariant *)

Lemma index_ext R R' hist :
  Forall (fun r => R' !! r = R !! r) hist -> index R' hist = index R hist.
Proof.
  induction hist as [|r hist IH] using rev_ind; [reflexivity|].
  intros [Hh Hr]%Forall_app. apply List.Forall_inv in Hr.
  rewrite !index_snoc, IH by exact Hh. unfold enter. rewrite Hr. reflexivity.
Qed.

Lemma lookup_snoc_old (R : list ThoughtData) v (rs : list addr) :
  Forall (fun r => (r < length R)%nat) rs ->
  Forall (fun r => (R ++ [v]) !! r = R !! r) rs.
Proof.
  intros Hrs. eapply Forall_impl; [exact Hrs|]. cbn beta.
  intros r Hr. apply lookup_app_l, Hr.
Qed.

Lemma history_records_ext (R R' : list ThoughtData) (rs : list addr) :
  Forall (fun r => R' !! r = R !! r) rs ->
  omap (fun r => R' !! r) rs = omap (fun r => R !! r) rs.
Proof.
  induction 1 as [|r rs Hr _ IH]; [reflexivity|].
  cbn. rewrite Hr, IH. reflexivity.
Qed.

Section Invariant.
Context `{Library}.

Lemma consistent_accept self h input_data td :
  consistent self h -> parse input_data = inr td ->
  consistent self (after_call self h td)
  /\ history_records self (after_call self h td) =
     history_records self h ++ [adjusted td].
Proof.
  intros [Hwf Hidx Hval] Hparse.
  destruct (process_thought_accepts self input_data h td Hwf Hparse)
    as (_ & Hrecs & Hhist & Hlists & Hwf').
  pose proof (lookup_snoc_old (recs h) (adjusted td) _ (wf_records _ _ Hwf)) as Hold.
  assert (Hnew : (recs h ++ [adjusted td]) !! length (recs h) = Some (adjusted td)).
  { apply list_lookup_middle. reflexivity. }
  split; [split|].
  - exact Hwf'.
  - rewrite Hlists, Hrecs, Hhist, index_snoc, (index_ext _ _ _ Hold), Hidx.
    unfold enter. rewrite Hnew. reflexivity.
  - rewrite Hrecs, Hhist. apply Forall_app. split.
    + apply Forall_forall. intros r Hr.
      destruct (proj1 (Forall_forall _ _) Hval r Hr) as (v & Hv & Hvalid).
      exists v. split; [|exact Hvalid].
      rewrite (proj1 (Forall_forall _ _) Hold r Hr). exact Hv.
    + apply Forall_singleton. exists (adjusted td). split; [exact Hnew|].
      apply adjusted_valid, (parse_valid _ _ Hparse).
  - unfold history_records. rewrite Hrecs, Hhist, omap_app.
    simpl (omap _ [_]). rewrite Hnew. f_equal.
    apply history_records_ext, Hold.
Qed.

Lemma consistent_clear self h :
  consistent self h -> consistent self (after_clear self h).
Proof.
  intros [Hwf _ _].
  destruct (run_clear_history self h Hwf) as (_ & Hhist & Hdict & Hwf').
  split; [exact Hwf'| |].
  - unfold branch_lists. rewrite Hdict, Hhist. reflexivity.
  - rewrite Hhist. constructor.
Qed.

Lemma consistent_init h :
  consistent {| thought_history := length (lsts h); branches := length (dcts h) |}
             {| recs := recs h; lsts := lsts h ++ [[]]; dcts := dcts h ++ [[]] |}.
Proof.
  destruct (run_init h) as (_ & Hhist & Hdict & Hwf).
  split; [exact Hwf| |].
  - unfold branch_lists. rewrite Hdict, Hhist. reflexivity.
  - rewrite Hhist. constructor.
Qed.

End Invariant.

(** ** Sessions keep the invariant *)

Section Sessions.
Context `{Library}.

Lemma run_calls_consistent self cs h :
  consistent self h ->
  exists h',
    run_calls self cs h = (inr tt, h')
    /\ consistent self h'
    /\ history_records self h' = submitted_from (history_records self h) cs.
Proof.
  revert h. induction cs as [|c cs IH]; intros h Hc.
  - exists h. repeat split; try apply Hc.
  - cbn [run_calls submitted_from fold_left]. destruct c as [input_data|].
    + cbn [run_call submit]. destruct (parse input_data) as [e|td] eqn:Hparse.
      * pose proof (process_thought_rejects self input_data h e
                      (wf_history _ _ (c_wf _ _ Hc)) Hparse) as Hrun.
        destruct (IH h Hc) as (h' & Hrest & Hc' & Hrec').
        exists h'. split; [|split; assumption].
        unfold bind at 1. unfold bind at 1. rewrite Hrun. exact Hrest.
      * destruct (process_thought_accepts self input_data h td (c_wf _ _ Hc) Hparse)
          as (Hrun & _).
        destruct (consistent_accept self h input_data td Hc Hparse) as (Hc1 & Hrec1).
        destruct (IH _ Hc1) as (h' & Hrest & Hc' & Hrec').
        exists h'. split; [|split; [assumption|]].
        -- unfold bind at 1. unfold bind at 1. rewrite Hrun. exact Hrest.
        -- rewrite Hrec', Hrec1. reflexivity.
    + cbn [run_call submit].
      destruct (run_clear_history self h (c_wf _ _ Hc)) as (Hrun & Hhist & _).
      destruct (IH _ (consistent_clear self h Hc)) as (h' & Hrest & Hc' & Hrec').
      exists h'. split; [|split; [assumption|]].
      * unfold bind at 1. rewrite Hrun. exact Hrest.
      * rewrite Hrec'. unfold history_records at 1. rewrite Hhist. reflexivity.
Qed.

Theorem session_consistent cs h0 :
  exists self h,
    session cs h0 = (inr self, h)
    /\ consistent self h
    /\ history_records self h = submitted cs.
Proof.
  destruct (run_init h0) as (Hinit & Hhist & _).
  destruct (run_calls_consistent _ cs _ (consistent_init h0)) as (h & Hrun & Hc & Hrec).
  eexists _, h. split; [|split; [exact Hc|]].
  - unfold session. rewrite (run_bind _ _ _ _ _ Hinit).
    rewrite (run_bind _ _ _ _ _ Hrun). reflexivity.
  - rewrite Hrec. unfold history_records at 1. rewrite Hhist. reflexivity.
Qed.

End Sessions.

(** ** Payloads and the store of the scenarios *)

Lemma snake_items_payload `{Library} (p : payload) data :
  snake_items (map (fun kv => (PStr (fst kv), snd kv)) p) data = inr (normalised_from data p).
Proof.
  revert data. induction p as [|[k v] p IH]; intros data; [reflexivity|].
  cbn [map snake_items fst snd]. rewrite IH. reflexivity.
Qed.

Lemma parse_payload `{Library} (p : payload) :
  parse (as_dict p) =
  match ThoughtData_fields (normalised p) with
  | Some td => inr td
  | None => inl (str_ValidationError (normalised p))
  end.
Proof. unfold parse, as_dict. rewrite snake_items_payload. reflexivity. Qed.

Lemma demo_session :
  session [Process (as_dict step_A); Process (as_dict step_C)] empty_heap =
  (inr demo_self, demo_heap).
Proof. vm_compute. reflexivity. Qed.

Lemma demo_consistent : consistent demo_self demo_heap.
Proof.
  destruct (session_consistent
              [Process (as_dict step_A); Process (as_dict step_C)] empty_heap)
    as (self & h & Hs & Hc & _).
  rewrite demo_session in Hs. injection Hs as <- <-. exact Hc.
Qed.

(** ** Outcomes of the validator *)

Section Outcomes.
Context `{Library}.


Lemma validate_rejects input_data h e h1 :
  _validate_thought_data input_data h = (inl e, h1) ->
  exists e0, parse input_data = inl e0
             /\ e = ("Invalid thought data: " ++ e0)%string /\ h1 = h.
Proof.
  rewrite validate_parse. destruct (parse input_data) as [e0|td].
  - intros [= <- <-]. exists e0. repeat split.
  - unfold new_record. discriminate.
Qed.

End Outcomes.

(** ** The properties of the specification *)

Section Claims.
Context `{Library}.



(** C4. A submission that fails validation is answered, not raised: the
    response has the error text, which is not empty, the status failed,
    zero for both numbers, no next thought, no branches and the length of
    the history, and the heap is the one before the call. *)
Theorem failure_response self input_data h e h1 :
  wf self h ->
  _validate_thought_data input_data h = (inl e, h1) ->
  process_thought self input_data h =
    (inr {| resp_thought_number := 0; resp_total_thoughts := 0;
            resp_next_thought_needed := false; resp_branches := [];
            resp_thought_history_length := Z.of_nat (length (history self h));
            resp_error := Some e; resp_status := Some "failed" |}, h)
  /\ e <> "".
Proof.
  intros Hwf Hval.
  destruct (validate_rejects _ _ _ _ Hval) as (e0 & Hparse & -> & _).
  split; [|discriminate].
  apply process_thought_rejects; [apply Hwf|exact Hparse].
Qed.

(** C6. The summary: the number of records in the history, the keys of the
    branch dictionary in their order, each once, their count, and the
    number and total of the last record of the history or zero when there
    is none; the heap is returned as it was.  On a store that the methods
    have built the keys are the branch ids of the history in the order in
    which they are first seen. *)
Theorem summary_projection self h :
  wf self h ->
  exists s,
    get_summary self h = (inr s, h)
    /\ sum_total_thoughts s = Z.of_nat (length (history self h))
    /\ sum_branches s = dict_keys (branch_dict self h)
    /\ NoDup (sum_branches s)
    /\ sum_branch_count s = Z.of_nat (length (sum_branches s))
    /\ sum_latest_thought_number s =
       match last (history_records self h) with
       | Some v => thought_number v
       | None => 0
       end
    /\ sum_latest_total_estimate s =
       match last (history_records self h) with
       | Some v => total_thoughts v
       | None => 0
       end
    /\ (consistent self h ->
        sum_branches s = first_seen (branch_ids (recs h) (history self h))).
Proof.
  intros Hwf. exists (summary_of self h).
  split; [apply run_get_summary, Hwf|].
  cbn [summary_of sum_total_thoughts sum_branches sum_branch_count
       sum_latest_thought_number sum_latest_total_estimate].
  split; [reflexivity|]. split; [reflexivity|].
  split; [apply (wf_keys _ _ Hwf)|].
  split; [unfold dict_keys; rewrite length_map; reflexivity|].
  split; [reflexivity|]. split; [reflexivity|].
  intros [_ Hidx _].
  rewrite <- index_keys, <- Hidx. unfold branch_lists, dict_keys.
  rewrite map_map. reflexivity.
Qed.

End Claims.

Lemma demo_wf : wf demo_self demo_heap.
Proof. apply demo_consistent. Qed.



Lemma failure_response_witness :
  wf demo_self demo_heap
  /\ _validate_thought_data (as_dict no_thought) demo_heap =
     (inl "Invalid thought data: validation error for ThoughtData", demo_heap)
  /\ process_thought demo_self (as_dict no_thought) demo_heap =
     (inr {| resp_thought_number := 0; resp_total_thoughts := 0;
             resp_next_thought_needed := false; resp_branches := [];
             resp_thought_history_length := 2;
             resp_error := Some "Invalid thought data: validation error for ThoughtData";
             resp_status := Some "failed" |}, demo_heap)
  /\ "Invalid thought data: validation error for ThoughtData" <> "".
Proof.
  split; [exact demo_wf|]. split; [reflexivity|].
  apply (failure_response demo_self (as_dict no_thought) demo_heap _ demo_heap demo_wf).
  reflexivity.
Defined.

Lemma summary_projection_witness :
  wf demo_self demo_heap
  /\ exists s,
       get_summary demo_self demo_heap = (inr s, demo_heap)
       /\ sum_total_thoughts s = 2
       /\ sum_branches s = ["x"]
       /\ NoDup (sum_branches s)
       /\ sum_branch_count s = Z.of_nat (length (sum_branches s))
       /\ sum_latest_thought_number s = 2
       /\ sum_latest_total_estimate s = 3
       /\ (consistent demo_self demo_heap ->
           sum_branches s =
           first_seen (branch_ids (recs demo_heap) (history demo_self demo_heap))).
Proof.
  split; [exact demo_wf|].
  apply (summary_projection demo_self demo_heap demo_wf).
Defined.

(** ** The spellings of the adapter *)

Lemma camel_of_canonical k : _camel_to_snake (camel_of k) = _camel_to_snake k.
Proof.
  unfold camel_of, spellings. cbn [dict_get].
  repeat match goal with
         | |- context [String.eqb ?s k] =>
             destruct (String.eqb_spec s k) as [<-|_]; [reflexivity|]
         end.
  reflexivity.
Qed.

Lemma normalised_camel_keys data p :
  normalised_from data (camel_keys p) = normalised_from data p.
Proof.
  revert data. induction p as [|[k v] p IH]; intros data; [reflexivity|].
  cbn [camel_keys map normalised_from fold_left fst snd].
  rewrite camel_of_canonical. apply IH.
Qed.

Section Spelling.
Context `{Library}.

(** C7. A payload whose field names are spelled in camelCase is processed
    exactly as the payload with the snake_case names: the same response and
    the same heap.  Each spelling of the table is turned into the field
    name, and a field name is left as it is. *)
Theorem camel_case_same_result self (p : payload) h :
  process_thought self (as_dict (camel_keys p)) h = process_thought self (as_dict p) h
  /\ Forall (fun e => _camel_to_snake (snd e) = fst e /\ _camel_to_snake (fst e) = fst e)
       (("thought", "thought") :: spellings).
Proof.
  split.
  - unfold process_thought, _validate_thought_data, as_dict.
    rewrite !snake_items_payload, normalised_camel_keys. reflexivity.
  - repeat constructor.
Qed.

End Spelling.

(** ** Branches and history *)

Lemma registered_under_true R b (r : addr) :
  registered_under R b r = true <->
  exists v, R !! r = Some v /\ registers v = Some b.
Proof.
  unfold registered_under.
  destruct (R !! r) as [v|];
    [|split; [discriminate|intros (? & ? & _); discriminate]].
  destruct (registers v) as [b'|] eqn:E.
  - split.
    + intros ->%String.eqb_eq. exists v. split; [reflexivity|exact E].
    + intros (v' & [= <-] & Hr). rewrite E in Hr. injection Hr as ->.
      apply String.eqb_refl.
  - split; [discriminate|]. intros (v' & [= <-] & Hr). congruence.
Qed.

Lemma branch_consistent self h b :
  consistent self h ->
  branch self h b =
  match List.filter (registered_under (recs h) b) (history self h) with
  | [] => None
  | l => Some l
  end.
Proof. intros [_ Hidx _]. unfold branch. rewrite Hidx. apply index_get. Qed.

Lemma branch_elements self h b l (r : addr) :
  consistent self h -> branch self h b = Some l ->
  l <> [] /\ (In r l <-> In r (history self h) /\ registered_under (recs h) b r = true).
Proof.
  intros Hc. rewrite (branch_consistent self h b Hc).
  destruct (List.filter _ _) as [|x xs] eqn:Hf; [discriminate|].
  intros [= <-]. split; [discriminate|].
  rewrite <- Hf. apply filter_In.
Qed.

Section Branches.
Context `{Library}.

(** C2. Branch membership, with the empty branch id set apart: after any
    calls of [process_thought] and [clear_history] on a new service, the
    history holds the accepted submissions since the last clear, and a
    record is in [branches[b]] exactly when it is in the history and was
    submitted with the branch id [b], not empty, and a branch point. *)
Theorem branch_membership cs h0 :
  exists self h,
    session cs h0 = (inr self, h)
    /\ history_records self h = submitted cs
    /\ forall b (r : addr),
         (exists l, branch self h b = Some l /\ In r l) <->
         (In r (history self h)
          /\ exists v, recs h !! r = Some v
                       /\ branch_id v = Some b
                       /\ branch_from_thought v <> None
                       /\ b <> "").
Proof.
  destruct (session_consistent cs h0) as (self & h & Hs & Hc & Hrec).
  exists self, h. split; [exact Hs|]. split; [exact Hrec|].
  intros b r. split.
  - intros (l & Hl & Hin).
    destruct (branch_elements self h b l r Hc Hl) as (_ & Hiff).
    apply Hiff in Hin as (Hhist & Hreg). split; [exact Hhist|].
    apply registered_under_true in Hreg as (v & Hv & Hregs).
    exists v. split; [exact Hv|].
    apply registers_valid; [|exact Hregs].
    destruct (proj1 (Forall_forall _ _) (c_valid _ _ Hc) r) as (v' & Hv' & Hvalid).
    { apply list_elem_of_In, Hhist. }
    congruence.
  - intros (Hhist & v & Hv & Hid & Hbf & Hne).
    assert (Hvalid : valid v).
    { destruct (proj1 (Forall_forall _ _) (c_valid _ _ Hc) r) as (v' & Hv' & Hvalid).
      { apply list_elem_of_In, Hhist. }
      congruence. }
    assert (Hreg : registered_under (recs h) b r = true).
    { apply registered_under_true. exists v. split; [exact Hv|].
      apply registers_valid; [exact Hvalid|]. repeat split; assumption. }
    assert (Hin : In r (List.filter (registered_under (recs h) b) (history self h))).
    { apply filter_In. split; assumption. }
    rewrite (branch_consistent self h b Hc).
    destruct (List.filter _ _) as [|x xs]; [destruct Hin|].
    eexists. split; [reflexivity|exact Hin].
Qed.

(** C10. After any calls of [process_thought] and [clear_history] on a new
    service, every key of the branch dictionary leads to a list that is
    not empty and whose records are all in the history; with an empty
    history the dictionary is empty. *)
Theorem branches_within_history cs h0 :
  exists self h,
    session cs h0 = (inr self, h)
    /\ (forall b, In b (dict_keys (branch_dict self h)) ->
          exists l, branch self h b = Some l /\ l <> []
                    /\ forall r : addr, In r l -> In r (history self h))
    /\ (history self h = [] -> branch_dict self h = []).
Proof.
  destruct (session_consistent cs h0) as (self & h & Hs & Hc & _).
  exists self, h. split; [exact Hs|]. split.
  - intros b Hb.
    destruct (branch self h b) as [l|] eqn:Hl.
    + exists l. split; [reflexivity|].
      split; [apply (branch_elements self h b l 0%nat Hc Hl)|].
      intros r Hr. apply (branch_elements self h b l r Hc Hl), Hr.
    + exfalso. unfold branch in Hl. apply dict_get_None in Hl. apply Hl.
      unfold branch_lists. rewrite map_map. cbn [fst].
      apply list_elem_of_In, Hb.
  - intros Hnil. pose proof (c_index _ _ Hc) as Hidx.
    rewrite Hnil in Hidx. unfold branch_lists in Hidx. cbn in Hidx.
    apply map_eq_nil in Hidx. exact Hidx.
Qed.

End Branches.

(** The claim without the condition on the branch id fails: a submission
    with a branch point and the empty string as branch id is recorded and
    is in no branch. *)
Lemma blank_branch_id_not_registered :
  exists self h v,
    session [Process (as_dict step_blank)] empty_heap = (inr self, h)
    /\ In 0%nat (history self h)
    /\ recs h !! 0%nat = Some v
    /\ branch_id v = Some ""
    /\ branch_from_thought v <> None
    /\ ~ (exists l, branch self h "" = Some l /\ In 0%nat l).
Proof.
  eexists _, _, _. split; [vm_compute; reflexivity|].
  split; [left; reflexivity|]. split; [reflexivity|]. split; [reflexivity|].
  split; [discriminate|]. intros (l & Hl & _). discriminate.
Qed.

(** ** The rules, field by field *)

Section Rules.
Context `{Library}.
Variable data : dict pyval.

Lemma required_None {A} (conv : pyval -> option A) k :
  required conv data k = None <-> missing data k \/ not_accepted data conv k.
Proof.
  unfold required, missing, not_accepted. destruct (dict_get data k) as [v|].
  - split.
    + intros Hc. right. exists v. split; [reflexivity|exact Hc].
    + intros [?|(v' & [= <-] & Hc)]; [discriminate|exact Hc].
  - split; [left; reflexivity|reflexivity].
Qed.

Lemma optional_None {A} (conv : pyval -> option A) k :
  optional conv data k = None <-> not_accepted_opt data conv k.
Proof.
  unfold optional, not_accepted_opt. destruct (dict_get data k) as [v|].
  - destruct v;
      try (destruct (conv _) eqn:E; split;
           [discriminate
           |intros (v' & [= <-] & _ & Hc); congruence
           |intros _; eexists; repeat split; [discriminate|exact E]
           |reflexivity]).
    split; [discriminate|]. intros (v' & [= <-] & Hne & _). contradiction.
  - split; [discriminate|]. intros (v' & ? & _). discriminate.
Qed.

Lemma as_int_ge1_None v :
  as_int_ge1 v = None <-> as_int v = None \/ exists z, as_int v = Some z /\ z < 1.
Proof.
  unfold as_int_ge1. destruct (as_int v) as [z|].
  - destruct (1 <=? z) eqn:E.
    + apply Z.leb_le in E. split; [discriminate|].
      intros [?|(z' & [= <-] & ?)]; [discriminate|lia].
    + apply Z.leb_gt in E. split; [|reflexivity].
      intros _. right. exists z. split; [reflexivity|exact E].
  - split; [left; reflexivity|reflexivity].
Qed.

Lemma not_accepted_ge1 k :
  not_accepted data as_int_ge1 k <-> not_accepted data as_int k \/ below_one data k.
Proof.
  unfold not_accepted, below_one. split.
  - intros (v & Hv & [Hc|(z & Hz & Hlt)]%as_int_ge1_None).
    + left. exists v. split; assumption.
    + right. exists v, z. repeat split; assumption.
  - intros [(v & Hv & Hc)|(v & z & Hv & Hz & Hlt)]; exists v; (split; [exact Hv|]);
      apply as_int_ge1_None; [left; exact Hc|right; exists z; split; assumption].
Qed.

Lemma not_accepted_opt_ge1 k :
  not_accepted_opt data as_int_ge1 k <-> not_accepted_opt data as_int k \/ below_one_opt data k.
Proof.
  unfold not_accepted_opt, below_one_opt. split.
  - intros (v & Hv & Hne & [Hc|(z & Hz & Hlt)]%as_int_ge1_None).
    + left. exists v. repeat split; assumption.
    + right. exists v, z. repeat split; assumption.
  - intros [(v & Hv & Hne & Hc)|(v & z & Hv & Hne & Hz & Hlt)]; exists v;
      (split; [exact Hv|]); (split; [exact Hne|]);
      apply as_int_ge1_None; [left; exact Hc|right; exists z; split; assumption].
Qed.

Lemma ThoughtData_fields_None :
  ThoughtData_fields data = None <->
  required as_str data "thought" = None
  \/ required as_int_ge1 data "thought_number" = None
  \/ required as_int_ge1 data "total_thoughts" = None
  \/ required as_bool data "next_thought_needed" = None
  \/ optional as_bool data "is_revision" = None
  \/ optional as_int_ge1 data "revises_thought" = None
  \/ optional as_int_ge1 data "branch_from_thought" = None
  \/ optional as_str data "branch_id" = None
  \/ optional as_bool data "needs_more_thoughts" = None.
Proof.
  unfold ThoughtData_fields.
  destruct (required as_str data "thought");
  destruct (required as_int_ge1 data "thought_number");
  destruct (required as_int_ge1 data "total_thoughts");
  destruct (required as_bool data "next_thought_needed");
  destruct (optional as_bool data "is_revision");
  destruct (optional as_int_ge1 data "revises_thought");
  destruct (optional as_int_ge1 data "branch_from_thought");
  destruct (optional as_str data "branch_id");
  destruct (optional as_bool data "needs_more_thoughts");
  split; intros Hx; try reflexivity; try discriminate; try tauto;
    repeat (destruct Hx as [Hx|Hx]; try discriminate); discriminate.
Qed.

Lemma ThoughtData_fields_violates : ThoughtData_fields data = None <-> violates data.
Proof.
  rewrite ThoughtData_fields_None, !required_None, !optional_None,
    !not_accepted_ge1, !not_accepted_opt_ge1.
  unfold violates. tauto.
Qed.

End Rules.

Section Validator.
Context `{Library}.

Lemma rejected_payload (p : payload) h :
  rejected (as_dict p) h <-> ThoughtData_fields (normalised p) = None.
Proof.
  unfold rejected. rewrite validate_parse, parse_payload.
  destruct (ThoughtData_fields (normalised p)); split.
  - intros (e & h' & Hx). unfold new_record in Hx. discriminate.
  - discriminate.
  - reflexivity.
  - intros _. eexists _, _. reflexivity.
Qed.

(** C5. The validator rejects a payload exactly when, after the keys are
    normalised, a required field is missing, a field has a value that the
    library does not accept for the declared type of the field, a number
    is below one, or an optional number that is given is below one.  The
    text of the thought plays no part: whether it is empty is not looked
    at.  Which values the library accepts for a type is the library's; a
    value that has the type is among them. *)
Theorem validator_rejects_iff (p : payload) h :
  rejected (as_dict p) h <-> violates (normalised p).
Proof. rewrite rejected_payload. apply ThoughtData_fields_violates. Qed.

End Validator.

(** The claim with the rule on the empty text fails: this payload has an
    empty thought and is accepted. *)
Lemma empty_thought_accepted :
  empty_thought (normalised step_empty)
  /\ ~ rejected (as_dict step_empty) empty_heap
  /\ exists r h', _validate_thought_data (as_dict step_empty) empty_heap = (inr r, h')
                  /\ (thought <$> recs h' !! r) = Some "".
Proof.
  split; [exists (PStr ""); split; reflexivity|].
  split; [intros (e & h' & Hx); vm_compute in Hx; discriminate|].
  eexists _, _. split; reflexivity.
Qed.

Lemma acceptance_is_the_librarys h :
  @rejected strict (as_dict step_text_number) h
  /\ ~ @rejected coercing (as_dict step_text_number) h
  /\ @violates strict (normalised step_text_number)
  /\ ~ @violates coercing (normalised step_text_number).
Proof.
  assert (Hs : @ThoughtData_fields strict (normalised step_text_number) = None)
    by reflexivity.
  assert (Hc : @ThoughtData_fields coercing (normalised step_text_number) <> None)
    by (vm_compute; discriminate).
  split; [apply (@rejected_payload strict), Hs|].
  split; [intros Hr; apply (@rejected_payload coercing) in Hr; exact (Hc Hr)|].
  split; [apply (@ThoughtData_fields_violates strict), Hs|].
  intros Hv. apply (@ThoughtData_fields_violates coercing) in Hv. exact (Hc Hv).
Qed.

(** ** Payloads that differ in [needs_more_thoughts] *)

Lemma normalised_get data p k :
  dict_get (normalised_from data p) k =
  match latest p k with Some w => Some w | None => dict_get data k end.
Proof.
  revert data. induction p as [|[k' v] p IH]; intros data; [reflexivity|].
  cbn [normalised_from fold_left latest fst snd].
  change (fold_left _ p ?d) with (normalised_from d p). rewrite IH.
  destruct (latest p k); [reflexivity|].
  destruct (String.eqb_spec (_camel_to_snake k') k) as [<-|Hne].
  - apply dict_get_set_eq.
  - apply dict_get_set_ne, Hne.
Qed.



Section Informational.
Context `{Library}.





End Informational.



(** ** What the accessors hand out *)

Section Copies.
Context `{Library}.

(** The list [get_thought_history] returns is a new object: whatever the
    caller stores in it, the history and the branches of the service are
    as before. *)
Lemma history_copy_isolated self h (l : addr) h1 items h2 :
  wf self h ->
  get_thought_history self h = (inr l, h1) ->
  store_list l items h1 = (inr tt, h2) ->
  the_list h1 l = history self h
  /\ history self h2 = history self h
  /\ branch_dict self h2 = branch_dict self h
  /\ branch_lists self h2 = branch_lists self h.
Proof.
  intros Hwf Hget Hstore.
  unfold get_thought_history, list_copy in Hget.
  rewrite (run_bind _ _ _ _ _
             (run_load_list _ _ _ (lookup_the_list h _ (wf_history _ _ Hwf)))) in Hget.
  unfold new_list in Hget. injection Hget as <- <-.
  unfold store_list in Hstore. cbn [lsts recs dcts] in Hstore.
  rewrite list_lookup_middle in Hstore by reflexivity.
  injection Hstore as <-.
  assert (Hold : forall a, (a < length (lsts h))%nat ->
            the_list {| recs := recs h;
                        lsts := <[length (lsts h) := items]>
                                  (lsts h ++ [the_list h (thought_history self)]);
                        dcts := dcts h |} a = the_list h a).
  { intros a Ha. unfold the_list. cbn [lsts].
    rewrite list_lookup_insert_ne by lia. rewrite lookup_app_l by exact Ha. reflexivity. }
  split; [|split; [|split]].
  - unfold the_list. cbn [lsts]. rewrite list_lookup_middle by reflexivity. reflexivity.
  - apply Hold, Hwf.
  - reflexivity.
  - unfold branch_lists.
    change (branch_dict self _) with (branch_dict self h) at 1.
    apply map_ext_in. intros [k a] Hin%list_elem_of_In. cbn [fst snd]. f_equal.
    apply Hold. apply (proj1 (Forall_forall _ _) (wf_separate _ _ Hwf) a).
    apply list_elem_of_fmap. exists (k, a). split; [reflexivity|exact Hin].
Qed.

(** The dictionary [get_branches] returns is a new object too, but its
    values are the lists of the service. *)
Lemma branches_copy_shallow self h (d : addr) h1 :
  wf self h ->
  get_branches self h = (inr d, h1) ->
  d = length (dcts h)
  /\ dcts h1 !! d = Some (branch_dict self h)
  /\ branch_dict self h1 = branch_dict self h
  /\ lsts h1 = lsts h.
Proof.
  intros Hwf Hget. unfold get_branches, dict_copy in Hget.
  rewrite (run_bind _ _ _ _ _
             (run_load_dict _ _ _ (lookup_branch_dict self h (wf_branches _ _ Hwf))))
    in Hget.
  unfold new_dict in Hget. injection Hget as <- <-.
  split; [reflexivity|]. split; [apply list_lookup_middle; reflexivity|].
  split; [|reflexivity].
  unfold branch_dict. cbn [dcts].
  rewrite lookup_app_l by apply Hwf. reflexivity.
Qed.

End Copies.

(** C8 fails on the code: through the dictionary that [get_branches]
    returns a caller reaches the branch lists of the store, and through the
    list that [get_thought_history] returns the records of the store.  On
    the store of [step_A] and [step_C], appending to the returned list of
    branch [x] makes the next [get_branches] show two records under [x],
    and rewriting the estimate of the last returned record changes what
    [get_summary] reports. *)
Theorem returned_copies_share_objects :
  (exists h',
     (before <- caller_reads demo_self "x" ;;
      caller_appends demo_self "x" 0%nat ;;
      after <- caller_reads demo_self "x" ;;
      ret (before, after)) demo_heap = (inr (1, 2), h')
     /\ branch demo_self demo_heap "x" = Some [1%nat]
     /\ branch demo_self h' "x" = Some [1%nat; 0%nat])
  /\ (exists h',
        (before <- get_summary demo_self ;;
         caller_rewrites demo_self 99 ;;
         after <- get_summary demo_self ;;
         ret (sum_latest_total_estimate before, sum_latest_total_estimate after))
          demo_heap = (inr (3, 99), h')).
Proof.
  split; eexists; [split; [vm_compute; reflexivity|split; reflexivity]|].
  vm_compute. reflexivity.
Qed.

(** ** The counterexamples under any library

    The payloads hold values of the declared types only, so what happens
    to them does not depend on how the library treats other values. *)

Section AnyLibrary.
Context `{Library}.

Lemma parse_step_empty : parse (as_dict step_empty) = inr fields_empty.
Proof.
  rewrite parse_payload.
  replace (normalised step_empty) with (step_empty : dict pyval)
    by (vm_compute; reflexivity).
  unfold ThoughtData_fields, required, optional, as_int_ge1. cbn [dict_get step_empty].
  cbn [String.eqb Ascii.eqb Bool.eqb].
  rewrite as_str_exact, !as_int_exact. change (1 <=? 1) with true. cbn iota.
  rewrite as_bool_exact. reflexivity.
Qed.

Lemma parse_step_blank : parse (as_dict step_blank) = inr fields_blank.
Proof.
  rewrite parse_payload.
  replace (normalised step_blank) with (step_blank : dict pyval)
    by (vm_compute; reflexivity).
  unfold ThoughtData_fields, required, optional, as_int_ge1. cbn [dict_get step_blank].
  cbn [String.eqb Ascii.eqb Bool.eqb].
  rewrite !as_str_exact, !as_int_exact. change (1 <=? 1) with true. cbn iota.
  rewrite as_bool_exact. reflexivity.
Qed.

Lemma empty_thought_accepted_always h : ~ rejected (as_dict step_empty) h.
Proof.
  intros (e & h' & Hx). rewrite validate_parse, parse_step_empty in Hx.
  unfold new_record in Hx. discriminate.
Qed.

Lemma blank_branch_id_never_registered :
  exists self h,
    session [Process (as_dict step_blank)] empty_heap = (inr self, h)
    /\ history self h = [0%nat]
    /\ recs h !! 0%nat = Some fields_blank
    /\ branch_dict self h = [].
Proof.
  destruct (run_init empty_heap) as (Hinit & _ & _ & Hwf).
  destruct (process_thought_accepts _ _ _ _ Hwf parse_step_blank) as (Hrun & _).
  eexists _, _. split.
  - unfold session. rewrite (run_bind _ _ _ _ _ Hinit).
    cbn [run_calls run_call]. unfold bind at 1. unfold bind at 1. unfold bind at 1.
    rewrite Hrun. reflexivity.
  - split; [reflexivity|]. split; reflexivity.
Qed.

Lemma ill_typed_needs_more_thoughts_rejected self h v :
  wf self h -> v <> PNone -> as_bool v = None ->
  exists e, process_thought self (as_dict (with_nmt v)) h =
            (inr (failed (Z.of_nat (length (history self h))) e), h).
Proof.
  intros Hwf Hne Hv. eexists. apply process_thought_rejects; [apply Hwf|].
  rewrite parse_payload.
  assert (Hf : ThoughtData_fields (normalised (with_nmt v)) = None).
  { apply ThoughtData_fields_None. do 8 right.
    replace (normalised (with_nmt v)) with (with_nmt v : dict pyval)
      by (vm_compute; reflexivity).
    unfold optional.
    replace (dict_get (with_nmt v : dict pyval) "needs_more_thoughts")
      with (Some v) by reflexivity.
    destruct v; try contradiction; rewrite Hv; reflexivity. }
  rewrite Hf. reflexivity.
Qed.

End AnyLibrary.

Lemma ascii_cases (P : ascii -> Prop) :
  (forall b0 b1 b2 b3 b4 b5 b6 b7, P (Ascii b0 b1 b2 b3 b4 b5 b6 b7)) -> forall c, P c.
Proof. intros HP [b0 b1 b2 b3 b4 b5 b6 b7]. apply HP. Qed.

Lemma lower_char_not_capital c : is_capital (Text.lower_char c) = false.
Proof.
  revert c. apply ascii_cases.
  intros [] [] [] [] [] [] [] []; vm_compute; reflexivity.
Qed.

Lemma lower_char_fixed c : Text.lower_char c = c <-> is_capital c = false.
Proof.
  revert c. apply ascii_cases.
  intros [] [] [] [] [] [] [] []; vm_compute; split; congruence.
Qed.


Lemma is_upper_capital c : Text.is_upper c = true -> is_capital c = true.
Proof. unfold is_capital. intros ->. reflexivity. Qed.

Lemma lower_fixed s : Text.lower s = s <-> Forall (fun c => is_capital c = false) s.
Proof.
  unfold Text.lower. induction s as [|c s IH]; cbn [map].
  - split; [constructor|reflexivity].
  - split.
    + intros [= Hc Hs]. constructor; [apply lower_char_fixed, Hc|apply IH, Hs].
    + intros [Hc Hs]%Forall_cons. f_equal; [apply lower_char_fixed, Hc|apply IH, Hs].
Qed.

Lemma lower_not_capital s : Forall (fun c => is_capital c = false) (Text.lower s).
Proof.
  unfold Text.lower. induction s as [|c s IH]; cbn [map]; constructor;
    [apply lower_char_not_capital|exact IH].
Qed.

(** Without a letter of [[A-Z]] in the text neither pattern matches. *)
Lemma word_start_none s :
  Forall (fun c => Text.is_upper c = false) (tail s) -> Text.word_start s = None.
Proof.
  destruct s as [|c [|u [|l rest]]]; try reflexivity.
  cbn [tail]. intros [Hu _]%Forall_cons. cbn [Text.word_start].
  rewrite Hu, andb_false_r. reflexivity.
Qed.

Lemma hump_none s :
  Forall (fun c => Text.is_upper c = false) (tail s) -> Text.hump s = None.
Proof.
  destruct s as [|a [|b rest]]; try reflexivity.
  cbn [tail]. intros [Hb _]%Forall_cons. cbn [Text.hump].
  rewrite Hb, andb_false_r. reflexivity.
Qed.

Lemma re_sub_no_match (m : Text.matcher) s :
  (forall t, Forall (fun c => Text.is_upper c = false) (tail t) -> m t = None) ->
  Forall (fun c => Text.is_upper c = false) s ->
  Text.re_sub m s = s.
Proof.
  intros Hm. unfold Text.re_sub. induction s as [|c s IH]; [reflexivity|].
  intros [Hc Hs]%Forall_cons. cbn [Text.re_sub_from].
  rewrite (Hm (c :: s)) by exact Hs. rewrite IH by exact Hs. reflexivity.
Qed.







Lemma not_capital_not_upper s :
  Forall (fun c => is_capital c = false) s -> Forall (fun c => Text.is_upper c = false) s.
Proof.
  intros Hs. eapply Forall_impl; [exact Hs|].
  intros c Hc. cbn beta in *. destruct (Text.is_upper c) eqn:E; [|reflexivity].
  apply is_upper_capital in E. congruence.
Qed.

Lemma snake_not_capital name :
  Forall (fun c => is_capital c = false) (chars (_camel_to_snake name)).
Proof.
  unfold chars, _camel_to_snake. rewrite list_ascii_of_string_of_list_ascii.
  apply lower_not_capital.
Qed.

Lemma snake_fixed name :
  Forall (fun c => is_capital c = false) (chars name) -> _camel_to_snake name = name.
Proof.
  intros Hn. unfold _camel_to_snake. fold (chars name).
  pose proof (not_capital_not_upper _ Hn) as Hu.
  rewrite (re_sub_no_match Text.word_start _ word_start_none Hu).
  rewrite (re_sub_no_match Text.hump _ hump_none Hu).
  rewrite (proj2 (lower_fixed _) Hn).
  apply string_of_list_ascii_of_string.
Qed.

(** X1. The result of [_camel_to_snake] holds no capital letter, whatever
    the name. *)
Theorem camel_to_snake_lowercase name :
  Forall (fun c => is_capital c = false) (chars (_camel_to_snake name)).
Proof.
  unfold chars, _camel_to_snake. rewrite list_ascii_of_string_of_list_ascii.
  apply lower_not_capital.
Qed.


(** X3. Normalising twice is normalising once. *)
Theorem camel_to_snake_idempotent name :
  _camel_to_snake (_camel_to_snake name) = _camel_to_snake name.
Proof. apply snake_fixed, snake_not_capital. Qed.


Section Reading.
Context `{Library}.

Lemma process_thought_by_parse self i1 i2 h :
  parse i1 = parse i2 -> process_thought self i1 h = process_thought self i2 h.
Proof.
  intros Heq. unfold process_thought, try_except, bind.
  rewrite !validate_parse, Heq. reflexivity.
Qed.

Lemma snake_items_bad_key items data :
  Exists (fun kv => is_str (fst kv) = false) items ->
  exists key, snake_items items data = inl key
              /\ In key (map fst items) /\ is_str key = false.
Proof.
  revert data. induction items as [|[k v] items IH]; intros data Hex.
  - inversion Hex.
  - destruct k as [| | |s|]; cbn [snake_items];
      try (eexists; split; [reflexivity|split; [left; reflexivity|reflexivity]]).
    apply Exists_cons in Hex as [Hk|Hex]; [discriminate|].
    destruct (IH (dict_set data (_camel_to_snake s) v) Hex) as (key & Hs & Hin & Hkey).
    exists key. split; [exact Hs|]. split; [right; exact Hin|exact Hkey].
Qed.

Lemma fields_by_lookup data1 data2 :
  (forall k, In k field_names -> dict_get data1 k = dict_get data2 k) ->
  ThoughtData_fields data1 = ThoughtData_fields data2.
Proof.
  intros Hk. unfold ThoughtData_fields, required, optional.
  rewrite !Hk by (cbn; tauto). reflexivity.
Qed.

(** X5. An input that is not a dictionary, and a dictionary with a key that
    is not a string, are answered with the failure response and leave the
    heap as it is; for the first the text is fixed, for the second it is
    the text of the [TypeError] for one of the keys that is not a string. *)
Theorem not_a_payload_rejected self h :
  wf self h ->
  (forall v,
     process_thought self (NotDict v) h =
     (inr (failed (Z.of_nat (length (history self h)))
             "Invalid thought data: Input must be a dictionary"), h))
  /\ (forall items,
        Exists (fun kv => is_str (fst kv) = false) items ->
        exists key,
          In key (map fst items) /\ is_str key = false
          /\ process_thought self (Dict items) h =
             (inr (failed (Z.of_nat (length (history self h)))
                     ("Invalid thought data: " ++ str_TypeError key)%string), h)).
Proof.
  intros Hwf. split.
  - intros v. apply process_thought_rejects; [apply Hwf|reflexivity].
  - intros items Hex.
    destruct (snake_items_bad_key items [] Hex) as (key & Hs & Hin & Hkey).
    exists key. split; [exact Hin|]. split; [exact Hkey|].
    apply process_thought_rejects; [apply Hwf|].
    unfold parse. rewrite Hs. reflexivity.
Qed.

(** X6. A payload is read for the nine field names only, and for each name
    the last item whose key is normalised to it counts: two payloads that
    agree on these values give the same record or are both rejected, and
    when they are accepted the calls return the same response and heap. *)
Theorem payload_read_by_last_item self (p1 p2 : payload) h :
  (forall k, In k field_names -> latest p1 k = latest p2 k) ->
  ThoughtData_fields (normalised p1) = ThoughtData_fields (normalised p2)
  /\ (ThoughtData_fields (normalised p1) <> None ->
      process_thought self (as_dict p1) h = process_thought self (as_dict p2) h).
Proof.
  intros Hk.
  assert (Hf : ThoughtData_fields (normalised p1) = ThoughtData_fields (normalised p2)).
  { apply fields_by_lookup. intros k Hin. unfold normalised.
    rewrite !normalised_get, (Hk k Hin). reflexivity. }
  split; [exact Hf|]. intros Hacc.
  apply process_thought_by_parse. rewrite !parse_payload, <- Hf.
  destruct (ThoughtData_fields (normalised p1)); [reflexivity|contradiction].
Qed.

End Reading.

Lemma not_a_payload_rejected_witness :
  wf demo_self demo_heap
  /\ process_thought demo_self (NotDict (PInt 3)) demo_heap =
     (inr (failed 2 "Invalid thought data: Input must be a dictionary"), demo_heap)
  /\ exists key,
       In key [PStr "thought"; PInt 1] /\ is_str key = false
       /\ process_thought demo_self (Dict [(PStr "thought", PStr "A"); (PInt 1, PNone)])
            demo_heap =
          (inr (failed 2 ("Invalid thought data: " ++ str_TypeError key)%string), demo_heap).
Proof.
  destruct (not_a_payload_rejected demo_self demo_heap demo_wf) as [Hn Hd].
  split; [exact demo_wf|]. split; [apply Hn|].
  apply (Hd [(PStr "thought", PStr "A"); (PInt 1, PNone)]).
  apply Exists_cons_tl, Exists_cons_hd. reflexivity.
Defined.

Lemma payload_read_by_last_item_witness :
  (forall k, In k field_names -> latest step_A_respelled k = latest step_A k)
  /\ ThoughtData_fields (normalised step_A_respelled) =
     ThoughtData_fields (normalised step_A)
  /\ (ThoughtData_fields (normalised step_A_respelled) <> None ->
      process_thought demo_self (as_dict step_A_respelled) demo_heap =
      process_thought demo_self (as_dict step_A) demo_heap).
Proof.
  assert (Hk : forall k, In k field_names -> latest step_A_respelled k = latest step_A k).
  { intros k Hin. cbn [field_names In] in Hin.
    repeat (destruct Hin as [<-|Hin]; [vm_compute; reflexivity|]). destruct Hin. }
  split; [exact Hk|].
  apply (payload_read_by_last_item demo_self step_A_respelled step_A demo_heap Hk).
Defined.

Lemma dict_append_keys_grow d b r :
  exists more, dict_keys (dict_append d b r) = dict_keys d ++ more.
Proof.
  rewrite dict_append_keys. destruct (bool_decide _).
  - exists []. rewrite app_nil_r. reflexivity.
  - exists [b]. reflexivity.
Qed.

Lemma dict_append_get_grow d b r b' l :
  dict_get (dict_append d b r) b' = Some l ->
  forall l0, dict_get d b' = Some l0 -> exists more, l = l0 ++ more.
Proof.
  rewrite dict_append_get. destruct (String.eqb_spec b b') as [->|Hne].
  - intros [= <-] l0 Hl0. rewrite Hl0. exists [r]. reflexivity.
  - intros Hl l0 Hl0. exists []. rewrite app_nil_r. congruence.
Qed.

Section Growth.
Context `{Library}.

Lemma wf_get_thought_history self h (l : addr) h1 :
  wf self h -> get_thought_history self h = (inr l, h1) ->
  wf self h1 /\ history self h1 = history self h
  /\ branch_dict self h1 = branch_dict self h
  /\ recs h1 = recs h /\ dcts h1 = dcts h
  /\ lsts h1 = lsts h ++ [history self h] /\ l = length (lsts h).
Proof.
  intros Hwf Hget. unfold get_thought_history, list_copy in Hget.
  rewrite (run_bind _ _ _ _ _
             (run_load_list _ _ _ (lookup_the_list h _ (wf_history _ _ Hwf)))) in Hget.
  unfold new_list in Hget. injection Hget as <- <-.
  assert (Hhist : history self
                    {| recs := recs h;
                       lsts := lsts h ++ [the_list h (thought_history self)];
                       dcts := dcts h |} = history self h).
  { unfold history at 1, the_list at 1. cbn [lsts].
    rewrite lookup_app_l by apply Hwf. reflexivity. }
  split; [|split; [exact Hhist|repeat split; reflexivity]].
  destruct Hwf as [Hth Hbr Hk Hl Hsep Hrec].
  split; rewrite ?Hhist; cbn [recs lsts dcts]; try assumption.
  - rewrite length_app. lia.
  - change (branch_dict self _) with (branch_dict self h).
    eapply Forall_impl; [exact Hsep|]. cbn beta. intros a [? ?].
    split; [rewrite length_app; lia|assumption].
Qed.

Lemma wf_get_branches self h (d : addr) h1 :
  wf self h -> get_branches self h = (inr d, h1) ->
  wf self h1 /\ history self h1 = history self h
  /\ branch_dict self h1 = branch_dict self h
  /\ recs h1 = recs h /\ lsts h1 = lsts h
  /\ dcts h1 = dcts h ++ [branch_dict self h] /\ d = length (dcts h).
Proof.
  intros Hwf Hget. unfold get_branches, dict_copy in Hget.
  rewrite (run_bind _ _ _ _ _
             (run_load_dict _ _ _ (lookup_branch_dict self h (wf_branches _ _ Hwf))))
    in Hget.
  unfold new_dict in Hget. injection Hget as <- <-.
  assert (Hdict : branch_dict self
                    {| recs := recs h; lsts := lsts h;
                       dcts := dcts h ++ [branch_dict self h] |} = branch_dict self h).
  { unfold branch_dict at 1. cbn [dcts].
    rewrite lookup_app_l by apply Hwf. reflexivity. }
  split; [|split; [reflexivity|split; [exact Hdict|repeat split; reflexivity]]].
  destruct Hwf as [Hth Hbr Hk Hl Hsep Hrec].
  split; rewrite ?Hdict; cbn [recs lsts dcts]; try assumption.
  rewrite length_app. lia.
Qed.

(** X7. [clear_history] empties the history and the branch dictionary and
    touches no record; the summary of the cleared store is all zero. *)
Theorem clear_resets self h :
  wf self h ->
  exists h',
    clear_history self h = (inr tt, h')
    /\ history self h' = [] /\ branch_dict self h' = []
    /\ recs h' = recs h
    /\ get_summary self h' = (inr zero_summary, h').
Proof.
  intros Hwf. destruct (run_clear_history self h Hwf) as (Hrun & Hhist & Hdict & Hwf').
  exists (after_clear self h). split; [exact Hrun|].
  split; [exact Hhist|]. split; [exact Hdict|]. split; [reflexivity|].
  rewrite (run_get_summary self _ Hwf'). unfold summary_of, history_records.
  rewrite Hhist, Hdict. reflexivity.
Qed.


(** X9. A list taken with [get_thought_history] and a dictionary taken with
    [get_branches] keep what they held when the store is cleared
    afterwards: [clear_history] empties the two objects of the service and
    no other. *)
Theorem copies_survive_clear self h :
  wf self h ->
  exists (l d : addr) h1 h2 h3,
    get_thought_history self h = (inr l, h1)
    /\ get_branches self h1 = (inr d, h2)
    /\ clear_history self h2 = (inr tt, h3)
    /\ history self h3 = [] /\ branch_dict self h3 = []
    /\ the_list h3 l = history self h
    /\ dcts h3 !! d = Some (branch_dict self h)
    /\ forall a, In a (map snd (branch_dict self h)) -> the_list h3 a = the_list h a.
Proof.
  intros Hwf.
  destruct (get_thought_history self h) as [[e|l] h1] eqn:Hg1.
  { unfold get_thought_history, list_copy in Hg1.
    rewrite (run_bind _ _ _ _ _
               (run_load_list _ _ _ (lookup_the_list h _ (wf_history _ _ Hwf)))) in Hg1.
    discriminate. }
  destruct (wf_get_thought_history self h l h1 Hwf Hg1)
    as (Hwf1 & Hh1 & Hd1 & Hr1 & Hdc1 & Hl1 & ->).
  destruct (get_branches self h1) as [[e|d] h2] eqn:Hg2.
  { unfold get_branches, dict_copy in Hg2.
    rewrite (run_bind _ _ _ _ _
               (run_load_dict _ _ _ (lookup_branch_dict self h1 (wf_branches _ _ Hwf1))))
      in Hg2.
    discriminate. }
  destruct (wf_get_branches self h1 d h2 Hwf1 Hg2)
    as (Hwf2 & Hh2 & Hd2 & Hr2 & Hl2 & Hdc2 & ->).
  destruct (run_clear_history self h2 Hwf2) as (Hrun & Hhist & Hdict & _).
  exists (length (lsts h)), (length (dcts h1)), h1, h2, (after_clear self h2).
  split; [reflexivity|]. split; [exact Hg2|]. split; [exact Hrun|].
  split; [exact Hhist|]. split; [exact Hdict|].
  assert (Hth : (thought_history self < length (lsts h))%nat) by apply Hwf.
  assert (Hlsts : lsts (after_clear self h2) =
                  <[thought_history self := []]> (lsts h ++ [history self h])).
  { unfold after_clear. cbn [lsts]. rewrite Hl2, Hl1. reflexivity. }
  split; [|split].
  - unfold the_list. rewrite Hlsts.
    rewrite list_lookup_insert_ne by lia.
    rewrite list_lookup_middle by reflexivity. reflexivity.
  - unfold after_clear. cbn [dcts]. rewrite Hdc2.
    rewrite list_lookup_insert_ne by (destruct Hwf1; lia).
    rewrite list_lookup_middle by reflexivity. rewrite Hd1. reflexivity.
  - intros a Ha.
    destruct (proj1 (Forall_forall _ _) (wf_separate _ _ Hwf) a) as [Hlt Hne];
      [apply list_elem_of_In, Ha|].
    unfold the_list. rewrite Hlsts.
    rewrite list_lookup_insert_ne by congruence.
    rewrite lookup_app_l by exact Hlt. reflexivity.
Qed.

(** X10. A recorded submission only adds: the record heap, the history, the
    list of branch ids and every branch list are the old ones with
    something appended, so that no earlier record is changed or moved. *)
Theorem record_only_appends self input_data h td :
  wf self h ->
  parse input_data = inr td ->
  exists resp h',
    process_thought self input_data h = (inr resp, h')
    /\ recs h' = recs h ++ [adjusted td]
    /\ history self h' = history self h ++ [length (recs h)]
    /\ (exists more,
          dict_keys (branch_dict self h') = dict_keys (branch_dict self h) ++ more)
    /\ (forall b l, branch self h b = Some l ->
          exists more, branch self h' b = Some (l ++ more)).
Proof.
  intros Hwf Hparse.
  destruct (process_thought_accepts self input_data h td Hwf Hparse)
    as (Hp & Hrecs & Hhist & Hlists & Hwf').
  cbv zeta in *. eexists _, _. split; [exact Hp|].
  split; [exact Hrecs|]. split; [exact Hhist|].
  assert (Hkeys : forall h0, dict_keys (branch_dict self h0) =
                             dict_keys (branch_lists self h0)).
  { intros h0. unfold branch_lists, dict_keys. rewrite map_map. reflexivity. }
  split.
  - rewrite !Hkeys, Hlists. unfold register.
    destruct (registers (adjusted td)) as [b|].
    + apply dict_append_keys_grow.
    + exists []. rewrite app_nil_r. reflexivity.
  - intros b l Hl. unfold branch in *. rewrite Hlists. unfold register.
    destruct (registers (adjusted td)) as [b'|].
    + rewrite dict_append_get. destruct (String.eqb_spec b' b) as [->|Hne].
      * rewrite Hl. exists [length (recs h)]. reflexivity.
      * exists []. rewrite app_nil_r. exact Hl.
    + exists []. rewrite app_nil_r. exact Hl.
Qed.

Lemma run_calls_records self cs h :
  wf self h ->
  exists h' more,
    run_calls self cs h = (inr tt, h') /\ wf self h' /\ recs h' = recs h ++ more.
Proof.
  revert h. induction cs as [|c cs IH]; intros h Hwf.
  - exists h, []. rewrite app_nil_r. split; [reflexivity|split; [exact Hwf|reflexivity]].
  - cbn [run_calls]. destruct c as [input_data|]; cbn [run_call].
    + destruct (parse input_data) as [e|td] eqn:Hparse.
      * pose proof (process_thought_rejects self input_data h e
                      (wf_history _ _ Hwf) Hparse) as Hrun.
        destruct (IH h Hwf) as (h' & more & Hrest & Hwf' & Hrecs).
        exists h', more. split; [|split; assumption].
        unfold bind at 1. unfold bind at 1. rewrite Hrun. exact Hrest.
      * destruct (process_thought_accepts self input_data h td Hwf Hparse)
          as (Hrun & Hrecs1 & _ & _ & Hwf1).
        cbv zeta in *.
        destruct (IH _ Hwf1) as (h' & more & Hrest & Hwf' & Hrecs).
        exists h', ([adjusted td] ++ more). split; [|split; [assumption|]].
        -- unfold bind at 1. unfold bind at 1. rewrite Hrun. exact Hrest.
        -- rewrite Hrecs, Hrecs1, <- app_assoc. reflexivity.
    + destruct (run_clear_history self h Hwf) as (Hrun & _ & _ & Hwf1).
      destruct (IH _ Hwf1) as (h' & more & Hrest & Hwf' & Hrecs).
      exists h', more. split; [|split; assumption].
      unfold bind at 1. rewrite Hrun. exact Hrest.
Qed.

(** X11. Whatever calls of [process_thought] and [clear_history] follow, a
    record once made is never changed: the estimate is raised on the new
    record only, and clearing drops references, not records. *)
Theorem records_never_change self cs h (r : addr) v :
  wf self h ->
  recs h !! r = Some v ->
  exists h', run_calls self cs h = (inr tt, h') /\ recs h' !! r = Some v.
Proof.
  intros Hwf Hr.
  destruct (run_calls_records self cs h Hwf) as (h' & more & Hrun & _ & Hrecs).
  exists h'. split; [exact Hrun|].
  rewrite Hrecs. apply lookup_app_l_Some, Hr.
Qed.

End Growth.

Lemma parse_step_B : parse (as_dict step_B) = inr fields_B.
Proof. vm_compute. reflexivity. Qed.

Lemma clear_resets_witness :
  wf demo_self demo_heap
  /\ exists h',
       clear_history demo_self demo_heap = (inr tt, h')
       /\ history demo_self h' = [] /\ branch_dict demo_self h' = []
       /\ recs h' = recs demo_heap
       /\ get_summary demo_self h' = (inr zero_summary, h').
Proof.
  split; [exact demo_wf|]. apply (clear_resets demo_self demo_heap demo_wf).
Defined.


Lemma copies_survive_clear_witness :
  wf demo_self demo_heap
  /\ exists (l d : addr) h1 h2 h3,
       get_thought_history demo_self demo_heap = (inr l, h1)
       /\ get_branches demo_self h1 = (inr d, h2)
       /\ clear_history demo_self h2 = (inr tt, h3)
       /\ history demo_self h3 = [] /\ branch_dict demo_self h3 = []
       /\ the_list h3 l = [0%nat; 1%nat]
       /\ dcts h3 !! d = Some [("x", 1%nat)]
       /\ forall a, In a [1%nat] -> the_list h3 a = the_list demo_heap a.
Proof.
  split; [exact demo_wf|]. apply (copies_survive_clear demo_self demo_heap demo_wf).
Defined.

Lemma record_only_appends_witness :
  wf demo_self demo_heap
  /\ parse (as_dict step_B) = inr fields_B
  /\ exists resp h',
       process_thought demo_self (as_dict step_B) demo_heap = (inr resp, h')
       /\ recs h' = recs demo_heap ++ [adjusted fields_B]
       /\ history demo_self h' = history demo_self demo_heap ++ [2%nat]
       /\ (exists more,
             dict_keys (branch_dict demo_self h') =
             dict_keys (branch_dict demo_self demo_heap) ++ more)
       /\ (forall b l, branch demo_self demo_heap b = Some l ->
             exists more, branch demo_self h' b = Some (l ++ more)).
Proof.
  split; [exact demo_wf|]. split; [exact parse_step_B|].
  apply (record_only_appends demo_self (as_dict step_B) demo_heap fields_B
           demo_wf parse_step_B).
Defined.

Lemma records_never_change_witness :
  wf demo_self demo_heap
  /\ recs demo_heap !! 1%nat = Some record_C
  /\ exists h',
       run_calls demo_self [Process (as_dict step_B); Clear; Process (as_dict step_C)]
         demo_heap = (inr tt, h')
       /\ recs h' !! 1%nat = Some record_C.
Proof.
  split; [exact demo_wf|]. split; [reflexivity|].
  apply (records_never_change demo_self
           [Process (as_dict step_B); Clear; Process (as_dict step_C)]
           demo_heap 1%nat record_C demo_wf eq_refl).
Defined.

Lemma normalised_tool_payload a :
  normalised (tool_payload a) =
  [("thought", PStr (arg_thought a));
   ("next_thought_needed", PBool (arg_next_thought_needed a));
   ("thought_number", PInt (arg_thought_number a));
   ("total_thoughts", PInt (arg_total_thoughts a));
   ("is_revision", PBool (arg_is_revision a));
   ("revises_thought", py_int (arg_revises_thought a));
   ("branch_from_thought", py_int (arg_branch_from_thought a));
   ("branch_id", py_str (arg_branch_id a));
   ("needs_more_thoughts", py_bool (arg_needs_more_thoughts a))].
Proof.
  unfold tool_payload.
  generalize (PStr (arg_thought a)) (PBool (arg_next_thought_needed a))
    (PInt (arg_thought_number a)) (PInt (arg_total_thoughts a))
    (PBool (arg_is_revision a)) (py_int (arg_revises_thought a))
    (py_int (arg_branch_from_thought a)) (py_str (arg_branch_id a))
    (py_bool (arg_needs_more_thoughts a)).
  intros. vm_compute. reflexivity.
Qed.

Section ToolFacts.
Context `{Library}.

Lemma as_int_ge1_exact z : as_int_ge1 (PInt z) = if 1 <=? z then Some z else None.
Proof. unfold as_int_ge1. rewrite as_int_exact. reflexivity. Qed.

Lemma optional_py_int data k o :
  dict_get data k = Some (py_int o) ->
  optional as_int_ge1 data k =
  match o with
  | Some z => if 1 <=? z then Some (Some z) else None
  | None => Some None
  end.
Proof.
  intros Hk. unfold optional. rewrite Hk. destruct o as [z|]; [|reflexivity].
  cbn [py_int]. rewrite as_int_ge1_exact. destruct (1 <=? z); reflexivity.
Qed.





Lemma parse_tool_payload_bad a :
  ~ arguments_ok a -> exists e, parse (as_dict (tool_payload a)) = inl e.
Proof.
  intros Hbad. rewrite parse_payload.
  destruct (ThoughtData_fields (normalised (tool_payload a))) as [td|] eqn:Hf;
    [|eexists; reflexivity].
  exfalso. apply Hbad.
  pose proof (ThoughtData_fields_valid _ _ Hf) as (Hn & Ht & Hr & Hb).
  rewrite normalised_tool_payload in Hf.
  apply ThoughtData_fields_Some in Hf as (_ & F2 & F3 & _ & _ & F6 & F7 & _).
  unfold required in F2, F3. cbn [dict_get String.eqb Ascii.eqb Bool.eqb] in F2, F3.
  rewrite as_int_ge1_exact in F2, F3.
  rewrite (optional_py_int _ _ (arg_revises_thought a)) in F6 by reflexivity.
  rewrite (optional_py_int _ _ (arg_branch_from_thought a)) in F7 by reflexivity.
  repeat split.
  - destruct (1 <=? arg_thought_number a) eqn:E; [apply Z.leb_le, E|discriminate].
  - destruct (1 <=? arg_total_thoughts a) eqn:E; [apply Z.leb_le, E|discriminate].
  - intros z Hz. rewrite Hz in F6.
    destruct (1 <=? z) eqn:E; [apply Z.leb_le, E|discriminate].
  - intros z Hz. rewrite Hz in F7.
    destruct (1 <=? z) eqn:E; [apply Z.leb_le, E|discriminate].
Qed.





(** X13. The tool [sequential_thinking] with a thought number or a total
    below one, or a revised thought or branch point given and below one:
    the reply has the status failed, an error text that is not empty, zero
    for both numbers and the length of the history, and the heap is as
    before. *)
Theorem tool_refuses_invalid_arguments service a h :
  wf service h ->
  ~ arguments_ok a ->
  exists e,
    sequential_thinking service a h =
      (inr (inl {| reply_thought_number := 0; reply_total_thoughts := 0;
                   reply_next_thought_needed := false; reply_branches := [];
                   reply_thought_history_length :=
                     Z.of_nat (length (history service h));
                   reply_error := Some e;
                   reply_status := "failed" |}), h)
    /\ e <> "".
Proof.
  intros Hwf Hbad. destruct (parse_tool_payload_bad a Hbad) as (e0 & Hparse).
  exists ("Invalid thought data: " ++ e0)%string. split; [|discriminate].
  unfold sequential_thinking, try_except.
  rewrite (run_bind _ _ _ _ _
             (process_thought_rejects service _ h e0 (wf_history _ _ Hwf) Hparse)).
  reflexivity.
Qed.


(** X15. The tool [clear_thought_history] answers success, and the tool
    [get_thought_summary] then reports the all-zero summary. *)
Theorem tool_clear_then_summary service h :
  wf service h ->
  exists h',
    clear_thought_history service h =
      (inr (inl ("success", "Thought history and branches cleared")), h')
    /\ get_thought_summary service h' = (inr (inl zero_summary), h').
Proof.
  intros Hwf. destruct (run_clear_history service h Hwf) as (Hrun & Hhist & Hdict & Hwf').
  exists (after_clear service h). split.
  - unfold clear_thought_history, try_except.
    rewrite (run_bind _ _ _ _ _ Hrun). reflexivity.
  - unfold get_thought_summary, try_except.
    rewrite (run_bind _ _ _ _ _ (run_get_summary service _ Hwf')).
    unfold summary_of, history_records. rewrite Hhist, Hdict. reflexivity.
Qed.

End ToolFacts.


Lemma arguments_zero_bad : ~ arguments_ok arguments_zero.
Proof. intros (Hn & _). cbn in Hn. lia. Qed.


Lemma tool_refuses_invalid_arguments_witness :
  wf demo_self demo_heap /\ ~ arguments_ok arguments_zero
  /\ exists e,
       sequential_thinking demo_self arguments_zero demo_heap =
         (inr (inl {| reply_thought_number := 0; reply_total_thoughts := 0;
                      reply_next_thought_needed := false; reply_branches := [];
                      reply_thought_history_length := 2;
                      reply_error := Some e; reply_status := "failed" |}), demo_heap)
       /\ e <> "".
Proof.
  split; [exact demo_wf|]. split; [exact arguments_zero_bad|].
  apply (tool_refuses_invalid_arguments demo_self arguments_zero demo_heap
           demo_wf arguments_zero_bad).
Defined.


Lemma tool_clear_then_summary_witness :
  wf demo_self demo_heap
  /\ exists h',
       clear_thought_history demo_self demo_heap =
         (inr (inl ("success", "Thought history and branches cleared")), h')
       /\ get_thought_summary demo_self h' = (inr (inl zero_summary), h').
Proof.
  split; [exact demo_wf|].
  apply (tool_clear_then_summary demo_self demo_heap demo_wf).
Defined.

(** ** Splitting an entry id *)

Lemma split_on_nonempty sep s : split_on sep s <> [].
Proof.
  destruct s as [|c s]; cbn [split_on]; [discriminate|].
  destruct (Ascii.eqb c sep); [discriminate|].
  destruct (split_on sep s); discriminate.
Qed.

Lemma split_on_without sep s : contains sep s = false -> split_on sep s = [s].
Proof.
  induction s as [|c s IH]; [reflexivity|]. cbn [contains split_on].
  intros [Hc Hs]%orb_false_elim. rewrite Hc, (IH Hs). reflexivity.
Qed.

Lemma split_on_app sep x y :
  split_on sep (x ++ String sep y) = split_on sep x ++ split_on sep y.
Proof.
  induction x as [|c x IH].
  - change ("" ++ String sep y)%string with (String sep y).
    cbn [split_on]. rewrite Ascii.eqb_refl. reflexivity.
  - change (String c x ++ String sep y)%string with (String c (x ++ String sep y)).
    cbn [split_on]. rewrite IH. destruct (Ascii.eqb c sep); [reflexivity|].
    destruct (split_on sep x) as [|p ps] eqn:E; [|reflexivity].
    exfalso. exact (split_on_nonempty sep x E).
Qed.

Lemma last_app_nonempty {A} (l1 l2 : list A) d :
  l2 <> [] -> List.last (l1 ++ l2) d = List.last l2 d.
Proof.
  intros Hne. induction l1 as [|a l1 IH]; [reflexivity|].
  cbn [app]. change (List.last (a :: (l1 ++ l2)) d) with
    (match l1 ++ l2 with [] => a | _ :: _ => List.last (l1 ++ l2) d end).
  destruct (l1 ++ l2) eqn:E; [|exact IH].
  apply app_eq_nil in E as [_ ?]. contradiction.
Qed.

Lemma last_segment sep pre seg :
  contains sep seg = false ->
  List.last (split_on sep (pre ++ String sep seg)) "" = seg.
Proof.
  intros Hs. rewrite split_on_app, last_app_nonempty by apply split_on_nonempty.
  rewrite (split_on_without _ _ Hs). reflexivity.
Qed.

Lemma contains_app c x y : contains c (x ++ y) = contains c x || contains c y.
Proof.
  induction x as [|c' x IH]; [reflexivity|].
  change (String c' x ++ y)%string with (String c' (x ++ y)).
  cbn [contains]. rewrite IH, orb_assoc. reflexivity.
Qed.

Section PaperFacts.
Variable paper_error : Result.t -> string.

(** X16. The identifier, the version and the address that
    [_create_paper_info] gives for a result with a PDF link.  The entry id
    is read behind its last slash; without a [v] there this text is the
    identifier, there is no version, and the address ends with it; with
    one [v] the identifier is the text before it, the version the text
    behind it, and the address ends with both again unless the version is
    empty. *)
Theorem paper_identifier result pre seg pdf :
  Result.entry_id result = (pre ++ "/" ++ seg)%string ->
  contains the_slash seg = false ->
  Result.pdf_url result = Some pdf ->
  exists p,
    _create_paper_info paper_error result = inr p
    /\ (contains the_v seg = false ->
        PaperInfo.arxiv_id p = seg /\ PaperInfo.version p = None
        /\ PaperInfo.arxiv_url p = ("https://arxiv.org/abs/" ++ seg)%string)
    /\ (forall a b,
          seg = (a ++ "v" ++ b)%string ->
          contains the_v a = false -> contains the_v b = false ->
          PaperInfo.arxiv_id p = a /\ PaperInfo.version p = Some b
          /\ PaperInfo.arxiv_url p =
             if nonempty b then ("https://arxiv.org/abs/" ++ seg)%string
             else ("https://arxiv.org/abs/" ++ a)%string).
Proof.
  intros Hid Hseg Hpdf. unfold _create_paper_info.
  rewrite Hpdf, Hid.
  change (pre ++ "/" ++ seg)%string with (pre ++ String the_slash seg)%string.
  rewrite (last_segment _ _ _ Hseg).
  eexists. split; [reflexivity|]. cbn [PaperInfo.arxiv_id PaperInfo.version PaperInfo.arxiv_url].
  split.
  - intros Hv. rewrite Hv. cbn [truthy_str]. repeat split.
  - intros a b -> Ha Hb.
    change (a ++ "v" ++ b)%string with (a ++ String the_v b)%string.
    assert (Hc : contains the_v (a ++ String the_v b) = true).
    { rewrite contains_app. cbn [contains]. rewrite Ascii.eqb_refl, orb_true_r. reflexivity. }
    rewrite Hc, split_on_app, (split_on_without _ _ Ha), (split_on_without _ _ Hb).
    cbn [app List.last List.hd truthy_str default]. unfold nonempty.
    split; [reflexivity|]. split; [reflexivity|].
    destruct (String.eqb b ""); reflexivity.
Qed.

Lemma collect_all_or_nothing rs raised :
  match collect paper_error rs raised with
  | inr papers =>
      raised = None
      /\ Forall2 (fun r p => _create_paper_info paper_error r = inr p) rs papers
  | inl e =>
      (exists before r after,
         rs = before ++ r :: after
         /\ Forall (fun r' => Result.pdf_url r' <> None) before
         /\ Result.pdf_url r = None /\ e = paper_error r)
      \/ (Forall (fun r => Result.pdf_url r <> None) rs /\ raised = Some e)
  end.
Proof.
  induction rs as [|r rs IH]; cbn [collect].
  - destruct raised as [e|]; [right|]; split; constructor.
  - destruct (_create_paper_info paper_error r) as [e|p] eqn:Hr.
    + left. exists [], r, rs. split; [reflexivity|]. split; [constructor|].
      unfold _create_paper_info in Hr. destruct (Result.pdf_url r); [discriminate|].
      injection Hr as <-. split; reflexivity.
    + assert (Hpdf : Result.pdf_url r <> None).
      { unfold _create_paper_info in Hr. destruct (Result.pdf_url r); discriminate. }
      destruct (collect paper_error rs raised) as [e|ps].
      * destruct IH as [(before & r' & after & -> & Hall & Hnone & He)|[Hall Hraised]].
        -- left. exists (r :: before), r', after. split; [reflexivity|].
           split; [constructor; assumption|]. split; assumption.
        -- right. split; [constructor; assumption|exact Hraised].
      * destruct IH as [Hraised Hall]. split; [exact Hraised|].
        constructor; assumption.
Qed.

(** X17. [advanced_search] returns the papers of all the results the
    library yields, in their order, or nothing.  When a result has no PDF
    link, the exception is the one for the first such result; when all
    have one and the library raises, it is the library's exception.  The
    papers made so far are dropped either way. *)
Theorem advanced_search_all_or_nothing (results : Search -> yielded) a :
  let found := results (advanced_search_request a) in
  match advanced_search results paper_error a with
  | inr papers =>
      snd found = None
      /\ Forall2 (fun r p => _create_paper_info paper_error r = inr p) (fst found) papers
  | inl e =>
      (exists before r after,
         fst found = before ++ r :: after
         /\ Forall (fun r' => Result.pdf_url r' <> None) before
         /\ Result.pdf_url r = None /\ e = paper_error r)
      \/ (Forall (fun r => Result.pdf_url r <> None) (fst found) /\ snd found = Some e)
  end.
Proof. intros found. apply collect_all_or_nothing. Qed.

End PaperFacts.

(** ** The query of [advanced_search] *)

Lemma nonempty_true s : nonempty s = true <-> s <> "".
Proof.
  unfold nonempty. destruct (String.eqb_spec s ""); cbn; split; congruence.
Qed.

Lemma concat_nonempty sep (x : string) xs : x <> "" -> String.concat sep (x :: xs) <> "".
Proof.
  intros Hx. cbn [String.concat]. destruct xs; [exact Hx|].
  destruct x; [contradiction|discriminate].
Qed.

Lemma query_parts_nonempty a : Forall (fun part => part <> "") (query_parts a).
Proof.
  unfold query_parts.
  repeat (apply Forall_app; split);
    repeat match goal with
      | |- Forall _ (if ?c then _ else _) => destruct c eqn:?
      end;
    try (apply Forall_nil_2); try (apply Forall_singleton; discriminate).
  apply Forall_singleton. apply nonempty_true. assumption.
Qed.

Lemma any_given_parts a : query_parts a = [] <-> any_given a = false.
Proof.
  unfold query_parts, any_given.
  destruct (nonempty (adv_query a)), (nonempty (adv_author a)),
    (nonempty (adv_title a)), (nonempty (adv_abstract a)),
    (nonempty (adv_category a)), (nonempty (adv_exclude_category a)),
    (nonempty (adv_start_date a)), (nonempty (adv_end_date a));
    cbn; split; congruence.
Qed.

(** X18. The query that [advanced_search] sends is never empty: it is a
    star when none of the eight text parameters is given, and the parts
    for the given ones, none of them empty, joined with AND otherwise; the
    number of results asked for is the smaller of [max_results] and 200. *)
Theorem advanced_query_never_empty a :
  query (advanced_search_request a) <> ""
  /\ query (advanced_search_request a) =
     (if any_given a then String.concat " AND " (query_parts a) else "*")
  /\ Forall (fun part => part <> "") (query_parts a)
  /\ max_results (advanced_search_request a) = Some (Z.min (adv_max_results a) 200).
Proof.
  pose proof (query_parts_nonempty a) as Hparts.
  pose proof (any_given_parts a) as Hgiven.
  unfold advanced_search_request. cbn [query max_results].
  destruct (query_parts a) as [|x xs] eqn:E.
  - rewrite (proj1 Hgiven eq_refl). repeat split; [discriminate|constructor].
  - destruct (any_given a); [|destruct Hgiven as [_ Hg]; discriminate (Hg eq_refl)].
    split; [apply concat_nonempty, (Forall_inv Hparts)|].
    repeat split. exact Hparts.
Qed.

Lemma dict_get_In {V} (d : dict V) k v :
  NoDup (dict_keys d) -> (dict_get d k = Some v <-> In (k, v) d).
Proof.
  unfold dict_keys. intros Hnd. split.
  - intros H. apply list_elem_of_In, dict_get_Some, H.
  - induction d as [|[k' v'] d IH]; [intros []|].
    cbn [map fst] in Hnd. apply NoDup_cons in Hnd as [Hnotin Hnd].
    cbn [dict_get]. intros [[= -> ->]|Hin].
    + rewrite String.eqb_refl. reflexivity.
    + destruct (String.eqb_spec k' k) as [->|Hne]; [|exact (IH Hnd Hin)].
      exfalso. apply Hnotin. apply list_elem_of_In.
      apply (in_map fst) in Hin. exact Hin.
Qed.

Lemma dict_set_keys {V} (d : dict V) k v :
  dict_keys (dict_set d k v) =
  if dict_has d k then dict_keys d else dict_keys d ++ [k].
Proof.
  unfold dict_keys, dict_has. induction d as [|[k' v'] d IH]; [reflexivity|].
  cbn [dict_set dict_get]. destruct (String.eqb k' k) eqn:E; [reflexivity|].
  cbn [map fst]. rewrite IH. destruct (dict_get d k); reflexivity.
Qed.

Lemma dict_set_NoDup {V} (d : dict V) k v :
  NoDup (dict_keys d) -> NoDup (dict_keys (dict_set d k v)).
Proof.
  intros Hnd. rewrite dict_set_keys. unfold dict_has.
  destruct (dict_get d k) eqn:E; [exact Hnd|].
  apply NoDup_app. split; [exact Hnd|]. split; [|apply NoDup_singleton].
  intros x Hx ->%list_elem_of_singleton. apply dict_get_None in E. exact (E Hx).
Qed.

Lemma tally_count_category counts c c' :
  tally (count_category counts c) c' =
  tally counts c' + (if String.eqb c c' then 1 else 0).
Proof.
  unfold tally, count_category. destruct (String.eqb_spec c c') as [->|Hne].
  - rewrite dict_get_set_eq. reflexivity.
  - rewrite dict_get_set_ne by exact Hne. lia.
Qed.

Lemma positive_count_category counts c :
  positive counts -> positive (count_category counts c).
Proof.
  intros Hpos c' n. unfold count_category.
  destruct (String.eqb_spec c c') as [->|Hne].
  - rewrite dict_get_set_eq. intros [= <-].
    destruct (dict_get counts c') as [m|] eqn:E; cbn; [|lia].
    specialize (Hpos _ _ E). lia.
  - rewrite dict_get_set_ne by exact Hne. apply Hpos.
Qed.

Lemma count_results_flat counts rs :
  count_results counts rs = fold_left count_category (categories_of rs) counts.
Proof.
  unfold count_results, categories_of. revert counts.
  induction rs as [|r rs IH]; intros counts; [reflexivity|].
  cbn [fold_left map concat]. rewrite fold_left_app. apply IH.
Qed.

Lemma count_results_app counts rs1 rs2 :
  count_results (count_results counts rs1) rs2 = count_results counts (rs1 ++ rs2).
Proof. unfold count_results. rewrite fold_left_app. reflexivity. Qed.

Lemma tally_fold cats counts c :
  tally (fold_left count_category cats counts) c =
  tally counts c + Z.of_nat (count_occ string_dec cats c).
Proof.
  revert counts. induction cats as [|k cats IH]; intros counts.
  - cbn [fold_left count_occ]. lia.
  - cbn [fold_left count_occ]. rewrite IH, tally_count_category.
    destruct (string_dec k c) as [->|Hne].
    + rewrite String.eqb_refl. lia.
    + apply String.eqb_neq in Hne. rewrite Hne. lia.
Qed.

Lemma positive_fold cats counts :
  positive counts -> positive (fold_left count_category cats counts).
Proof.
  revert counts. induction cats as [|k cats IH]; intros counts Hpos; [exact Hpos|].
  apply IH, positive_count_category, Hpos.
Qed.

Lemma NoDup_fold cats counts :
  NoDup (dict_keys counts) -> NoDup (dict_keys (fold_left count_category cats counts)).
Proof.
  revert counts. induction cats as [|k cats IH]; intros counts Hnd; [exact Hnd|].
  apply IH, dict_set_NoDup, Hnd.
Qed.

Lemma count_category_keys counts k :
  dict_keys (count_category counts k) =
  if dict_has counts k then dict_keys counts else dict_keys counts ++ [k].
Proof. apply dict_set_keys. Qed.

Lemma keys_fold cats :
  dict_keys (fold_left count_category cats []) = first_seen cats.
Proof.
  induction cats as [|k cats IH] using rev_ind; [reflexivity|].
  rewrite fold_left_app, first_seen_snoc. cbn [fold_left].
  rewrite count_category_keys, <- IH. unfold dict_has.
  destruct (dict_get _ k) eqn:E.
  - rewrite bool_decide_eq_true_2; [reflexivity|].
    destruct (decide (k ∈ dict_keys (fold_left count_category cats []))) as [?|Hn];
      [assumption|]. apply dict_get_None in Hn. congruence.
  - rewrite bool_decide_eq_false_2; [reflexivity|].
    apply dict_get_None, E.
Qed.

Lemma tally_counted rs c : tally (count_results [] rs) c = occurrences c rs.
Proof. rewrite count_results_flat, tally_fold. reflexivity. Qed.

Lemma positive_counted rs : positive (count_results [] rs).
Proof. rewrite count_results_flat. apply positive_fold. intros c n [=]. Qed.

Lemma NoDup_counted rs : NoDup (dict_keys (count_results [] rs)).
Proof. rewrite count_results_flat. apply NoDup_fold, NoDup_nil_2. Qed.

Lemma counted_get rs c n :
  dict_get (count_results [] rs) c = Some n <-> n = occurrences c rs /\ 0 < n.
Proof.
  rewrite <- tally_counted. unfold tally. split.
  - intros H. rewrite H. split; [reflexivity|]. exact (positive_counted rs _ _ H).
  - intros [-> Hpos]. destruct (dict_get (count_results [] rs) c); [reflexivity|].
    cbn in Hpos. lia.
Qed.

(** ** Sorting by falling count *)

Lemma insert_desc_perm e l : Permutation (insert_desc e l) (e :: l).
Proof.
  induction l as [|y l IH]; [reflexivity|]. cbn [insert_desc].
  destruct (snd e <? snd y); [|reflexivity].
  rewrite IH. apply perm_swap.
Qed.

Lemma sorted_desc_perm l : Permutation (sorted_desc l) l.
Proof.
  induction l as [|e l IH]; [reflexivity|].
  cbn [sorted_desc fold_right]. fold (sorted_desc l).
  rewrite insert_desc_perm, IH. reflexivity.
Qed.

Lemma insert_desc_falling e l : falling l -> falling (insert_desc e l).
Proof.
  unfold falling. induction l as [|y l IH]; intros Hs.
  - repeat constructor.
  - cbn [insert_desc]. apply StronglySorted_inv in Hs as [Hs Hy].
    destruct (snd e <? snd y) eqn:E.
    + apply Z.ltb_lt in E. constructor; [exact (IH Hs)|].
      rewrite (Forall_forall (fun x => snd x <= snd y)).
      intros x Hx%list_elem_of_In. apply (Permutation_in _ (insert_desc_perm e l)) in Hx.
      destruct Hx as [<-|Hx]; [lia|].
      rewrite (Forall_forall (fun x => snd x <= snd y)) in Hy.
      apply Hy, list_elem_of_In, Hx.
    + apply Z.ltb_ge in E. constructor; [constructor; assumption|].
      constructor; [exact E|].
      eapply Forall_impl; [exact Hy|]. cbn. intros; lia.
Qed.

Lemma sorted_desc_falling l : falling (sorted_desc l).
Proof.
  induction l as [|e l IH]; [constructor|].
  cbn [sorted_desc fold_right]. apply insert_desc_falling, IH.
Qed.

Lemma insert_desc_ties n e l :
  falling l ->
  List.filter (has_count n) (insert_desc e l) = List.filter (has_count n) (e :: l).
Proof.
  unfold falling. induction l as [|y l IH]; intros Hs; [reflexivity|].
  cbn [insert_desc]. apply StronglySorted_inv in Hs as [Hs Hy].
  destruct (snd e <? snd y) eqn:E; [|reflexivity].
  apply Z.ltb_lt in E. cbn [List.filter]. rewrite (IH Hs). cbn [List.filter].
  destruct (has_count n y) eqn:Ey, (has_count n e) eqn:Ee; try reflexivity.
  unfold has_count in Ey, Ee. lia.
Qed.

Lemma sorted_desc_ties n l :
  List.filter (has_count n) (sorted_desc l) = List.filter (has_count n) l.
Proof.
  induction l as [|e l IH]; [reflexivity|].
  cbn [sorted_desc fold_right]. fold (sorted_desc l).
  rewrite insert_desc_ties by apply sorted_desc_falling.
  cbn [List.filter]. rewrite IH. reflexivity.
Qed.

Lemma trending_perm counts m :
  Permutation (trending counts m) (List.filter (fun e => m <=? snd e) counts).
Proof. apply sorted_desc_perm. Qed.

Lemma filter_keys_NoDup {V} (P : string * V -> bool) (d : dict V) :
  NoDup (dict_keys d) -> NoDup (dict_keys (List.filter P d)).
Proof.
  unfold dict_keys. induction d as [|e d IH]; [intros; apply NoDup_nil_2|].
  cbn [map List.filter]. intros [Hnotin Hnd]%NoDup_cons.
  destruct (P e); [|exact (IH Hnd)].
  cbn [map]. apply NoDup_cons. split; [|exact (IH Hnd)].
  intros Hin. apply Hnotin. apply list_elem_of_In in Hin. apply list_elem_of_In.
  apply in_map_iff in Hin as (x & Hx & Hin). apply filter_In in Hin as [Hin _].
  rewrite <- Hx. apply in_map, Hin.
Qed.

Lemma trending_NoDup counts m :
  NoDup (dict_keys counts) -> NoDup (dict_keys (trending counts m)).
Proof.
  intros Hnd. unfold dict_keys.
  apply NoDup_ListNoDup.
  eapply Permutation_NoDup.
  - symmetry. apply Permutation_map, trending_perm.
  - apply NoDup_ListNoDup. apply (filter_keys_NoDup _ _ Hnd).
Qed.

Lemma trending_get counts m c n :
  NoDup (dict_keys counts) ->
  dict_get (trending counts m) c = Some n <-> dict_get counts c = Some n /\ m <= n.
Proof.
  intros Hnd.
  rewrite (dict_get_In _ _ _ (trending_NoDup _ m Hnd)), (dict_get_In _ _ _ Hnd).
  split.
  - intros Hin. apply (Permutation_in _ (trending_perm counts m)) in Hin.
    apply filter_In in Hin as [Hin Hm]. cbn in Hm. split; [exact Hin|lia].
  - intros [Hin Hm]. apply (Permutation_in _ (Permutation_sym (trending_perm counts m))).
    apply filter_In. split; [exact Hin|]. cbn. lia.
Qed.

Lemma trending_falling counts m : falling (trending counts m).
Proof. apply sorted_desc_falling. Qed.

Lemma trending_threshold counts m : Forall (fun e => m <= snd e) (trending counts m).
Proof.
  rewrite (Forall_forall (fun e => m <= snd e)). intros e Hin%list_elem_of_In.
  apply (Permutation_in _ (trending_perm counts m)) in Hin.
  apply filter_In in Hin as [_ Hm]. lia.
Qed.

Lemma trending_ties counts m n :
  m <= n ->
  List.filter (has_count n) (trending counts m) = List.filter (has_count n) counts.
Proof.
  intros Hm. unfold trending. rewrite sorted_desc_ties.
  induction counts as [|e counts IH]; [reflexivity|].
  cbn [List.filter]. destruct (m <=? snd e) eqn:E; cbn [List.filter]; rewrite IH.
  - reflexivity.
  - destruct (has_count n e) eqn:En; [|reflexivity]. unfold has_count in En. lia.
Qed.

(** ** [get_trending_categories] *)

Lemma ties_among counts n (l : dict Z) :
  (forall e, In e l -> tally counts (fst e) = snd e) ->
  map fst (List.filter (has_count n) l) =
  List.filter (fun c => tally counts c =? n) (map fst l).
Proof.
  induction l as [|e l IH]; intros Hall; [reflexivity|].
  cbn [List.filter map]. rewrite (Hall e (or_introl eq_refl)).
  unfold has_count at 1. destruct (snd e =? n); cbn [map];
    rewrite IH by (intros; apply Hall; right; assumption); reflexivity.
Qed.

Lemma ties_by_tally counts n :
  NoDup (dict_keys counts) ->
  map fst (List.filter (has_count n) counts) =
  List.filter (fun c => tally counts c =? n) (dict_keys counts).
Proof.
  intros Hnd. apply ties_among.
  intros [k v] Hin. unfold tally. cbn [fst snd].
  rewrite (proj2 (dict_get_In counts k v Hnd) Hin). reflexivity.
Qed.

Lemma keys_counted rs :
  dict_keys (count_results [] rs) = first_seen (categories_of rs).
Proof. rewrite count_results_flat. apply keys_fold. Qed.

Lemma trending_counted rs m c n :
  dict_get (trending (count_results [] rs) m) c = Some n
  <-> n = occurrences c rs /\ 0 < n /\ m <= n.
Proof.
  rewrite (trending_get _ _ _ _ (NoDup_counted rs)), counted_get. tauto.
Qed.

Lemma trending_shape rs m :
  falling (trending (count_results [] rs) m)
  /\ NoDup (dict_keys (trending (count_results [] rs) m))
  /\ Forall (fun e => m <= snd e /\ 0 < snd e) (trending (count_results [] rs) m).
Proof.
  split; [apply trending_falling|]. split; [apply trending_NoDup, NoDup_counted|].
  rewrite (Forall_forall (fun e => m <= snd e /\ 0 < snd e)).
  intros [k v] Hin.
  pose proof (trending_threshold (count_results [] rs) m) as Hm.
  rewrite (Forall_forall (fun e => m <= snd e)) in Hm. split; [exact (Hm _ Hin)|].
  apply list_elem_of_In in Hin.
  apply (dict_get_In _ _ _ (trending_NoDup _ m (NoDup_counted rs))) in Hin.
  apply trending_counted in Hin. cbn [snd]. tauto.
Qed.

Lemma filter_none {A} (f : A -> bool) (l : list A) :
  (forall x, In x l -> f x = false) -> List.filter f l = [].
Proof.
  induction l as [|x l IH]; intros Hf; [reflexivity|].
  cbn [List.filter]. rewrite (Hf x (or_introl eq_refl)).
  apply IH. intros y Hy. apply Hf. right. exact Hy.
Qed.

Lemma key_of_get {V} (d : dict V) c v : dict_get d c = Some v -> c ∈ dict_keys d.
Proof.
  intros Hget. destruct (decide (c ∈ dict_keys d)) as [?|Hn]; [assumption|].
  apply dict_get_None in Hn. congruence.
Qed.

Lemma get_of_key {V} (d : dict V) c : c ∈ dict_keys d -> exists v, dict_get d c = Some v.
Proof.
  intros Hin. destruct (dict_get d c) as [v|] eqn:E; [exists v; reflexivity|].
  apply dict_get_None in E. contradiction.
Qed.

Lemma occurrences_first_seen rs c :
  In c (first_seen (categories_of rs)) -> 0 < occurrences c rs.
Proof.
  intros Hin.
  assert (H1 : c ∈ first_seen (categories_of rs)) by (apply list_elem_of_In; exact Hin).
  apply (proj1 (first_seen_elem _ _)) in H1.
  assert (H2 : In c (categories_of rs)) by (apply list_elem_of_In; exact H1).
  apply (proj1 (count_occ_In string_dec _ _)) in H2.
  unfold occurrences. lia.
Qed.

Lemma trending_ties_counted rs m n :
  map fst (List.filter (has_count n) (trending (count_results [] rs) m)) =
  List.filter
    (fun c => bool_decide (c ∈ dict_keys (trending (count_results [] rs) m))
              && (occurrences c rs =? n))
    (first_seen (categories_of rs)).
Proof.
  destruct (Z_le_gt_dec m n) as [Hle|Hgt].
  - rewrite (trending_ties _ _ _ Hle), (ties_by_tally _ _ (NoDup_counted rs)).
    rewrite (keys_counted rs).
    apply filter_ext_in. intros c Hc. rewrite tally_counted.
    destruct (occurrences c rs =? n) eqn:E; [|rewrite andb_false_r; reflexivity].
    apply Z.eqb_eq in E. rewrite andb_true_r. symmetry. apply bool_decide_eq_true_2.
    apply (key_of_get _ c n). apply trending_counted.
    pose proof (occurrences_first_seen rs c Hc). lia.
  - rewrite (filter_none (has_count n)), (filter_none (fun c => _ && _)); [reflexivity| |].
    + intros c _. destruct (bool_decide _) eqn:E; [|reflexivity].
      apply bool_decide_eq_true_1, get_of_key in E as [v Hv].
      apply trending_counted in Hv. cbn [andb]. apply Z.eqb_neq. lia.
    + intros e He. pose proof (trending_threshold (count_results [] rs) m) as Hm.
      rewrite (Forall_forall (fun e => m <= snd e)) in Hm.
      apply list_elem_of_In in He. specialize (Hm _ He).
      unfold has_count. apply Z.eqb_neq. lia.
Qed.

Section TrendingFacts.
Variable results : Search -> yielded.
Variable date_range : Z -> string + string.

(** X19. When the query comes through, [get_trending_categories] gives
    exactly the categories met at least [min_papers] times and at least
    once, each with the number of times it is met among the categories of
    the results. *)
Theorem trending_counts days_back min_papers range rs :
  date_range days_back = inr range ->
  results (date_search range 500) = (rs, None) ->
  exists d,
    get_trending_categories results date_range days_back min_papers = inr d
    /\ forall c n,
         dict_get d c = Some n
         <-> n = occurrences c rs /\ 0 < n /\ min_papers <= n.
Proof.
  intros Hrange Hmain. unfold get_trending_categories.
  rewrite Hrange, Hmain. cbn [fst snd].
  eexists. split; [reflexivity|]. intros c n. apply trending_counted.
Qed.

(** X20. When the query breaks off, the query for the last seven days is
    made and its results are counted on top of the results the first one
    had yielded before it broke off; when the second one breaks off too
    the answer is empty, whatever had been counted. *)
Theorem trending_fallback days_back min_papers range rs1 e recent rs2 raised :
  date_range days_back = inr range ->
  results (date_search range 500) = (rs1, Some e) ->
  date_range 7 = inr recent ->
  results (date_search recent 200) = (rs2, raised) ->
  exists d,
    get_trending_categories results date_range days_back min_papers = inr d
    /\ match raised with
       | Some _ => d = []
       | None =>
           forall c n,
             dict_get d c = Some n
             <-> n = occurrences c (rs1 ++ rs2) /\ 0 < n /\ min_papers <= n
       end.
Proof.
  intros Hrange Hmain Hrecent Hfallback. unfold get_trending_categories.
  rewrite Hrange, Hmain. cbn [fst snd]. rewrite Hrecent, Hfallback. cbn [fst snd].
  destruct raised as [e2|]; eexists; (split; [reflexivity|]); [reflexivity|].
  intros c n. rewrite count_results_app. apply trending_counted.
Qed.

(** X21. Whatever [get_trending_categories] returns is in the order of
    falling counts, names no category twice, and holds no count below
    [min_papers] and none below one. *)
Theorem trending_sorted days_back min_papers d :
  get_trending_categories results date_range days_back min_papers = inr d ->
  falling d /\ NoDup (dict_keys d)
  /\ Forall (fun e => min_papers <= snd e /\ 0 < snd e) d.
Proof.
  unfold get_trending_categories.
  destruct (date_range days_back) as [?|range]; [discriminate|].
  destruct (results (date_search range 500)) as [rs1 [e|]]; cbn [fst snd].
  - destruct (date_range 7) as [?|recent]; [discriminate|].
    destruct (results (date_search recent 200)) as [rs2 [e2|]]; cbn [fst snd];
      intros [= <-].
    + split; [constructor|]. split; [apply NoDup_nil_2|constructor].
    + rewrite count_results_app. apply trending_shape.
  - intros [= <-]. apply trending_shape.
Qed.

(** X22. In whatever [get_trending_categories] returns, the categories of
    one count stand in the order in which the counted results bring them
    up first: they are the categories of the answer with that count, read
    in the order of first appearance. *)
Theorem trending_ties_first_seen days_back min_papers d n :
  get_trending_categories results date_range days_back min_papers = inr d ->
  map fst (List.filter (has_count n) d) =
  List.filter
    (fun c => bool_decide (c ∈ dict_keys d)
              && (occurrences c (counted results date_range days_back) =? n))
    (first_seen (categories_of (counted results date_range days_back))).
Proof.
  unfold get_trending_categories, counted.
  destruct (date_range days_back) as [?|range]; [discriminate|].
  destruct (results (date_search range 500)) as [rs1 [e|]]; cbn [fst snd].
  - destruct (date_range 7) as [?|recent]; [discriminate|].
    destruct (results (date_search recent 200)) as [rs2 [e2|]]; cbn [fst snd];
      intros [= <-].
    + symmetry. apply filter_none. intros c _.
      rewrite bool_decide_eq_false_2; [reflexivity|]. apply not_elem_of_nil.
    + rewrite count_results_app. apply trending_ties_counted.
  - intros [= <-]. apply trending_ties_counted.
Qed.

End TrendingFacts.

Lemma paper_identifier_witness :
  Result.entry_id paper_A = "http://arxiv.org/abs/2301.12345v2"
  /\ exists p,
       _create_paper_info sample_error paper_A = inr p
       /\ (contains the_v "2301.12345v2" = false ->
           PaperInfo.arxiv_id p = "2301.12345v2" /\ PaperInfo.version p = None
           /\ PaperInfo.arxiv_url p = "https://arxiv.org/abs/2301.12345v2")
       /\ (forall a b,
             "2301.12345v2" = (a ++ "v" ++ b)%string ->
             contains the_v a = false -> contains the_v b = false ->
             PaperInfo.arxiv_id p = a /\ PaperInfo.version p = Some b
             /\ PaperInfo.arxiv_url p =
                if nonempty b then "https://arxiv.org/abs/2301.12345v2"
                else ("https://arxiv.org/abs/" ++ a)%string).
Proof.
  split; [reflexivity|].
  apply (paper_identifier sample_error paper_A "http://arxiv.org/abs" "2301.12345v2"
           "http://arxiv.org/pdf/2301.12345v2"); reflexivity.
Defined.

Lemma advanced_query_never_empty_witness :
  query (advanced_search_request arguments_given) =
    "au:Knuth AND cat:cs.DS AND ANDNOT cat:math.CO AND submittedDate:[20240101 TO *]"
  /\ max_results (advanced_search_request arguments_given) = Some 25
  /\ query (advanced_search_request arguments_none) = "*"
  /\ max_results (advanced_search_request arguments_none) = Some 200.
Proof.
  destruct (advanced_query_never_empty arguments_given) as (_ & Hquery & _ & Hmax).
  destruct (advanced_query_never_empty arguments_none) as (_ & Hstar & _ & Hcap).
  split; [exact Hquery|]. split; [exact Hmax|]. split; [exact Hstar|exact Hcap].
Defined.

Lemma trending_counts_witness :
  exists d,
    get_trending_categories steady_results sample_dates 30 2 = inr d
    /\ forall c n,
         dict_get d c = Some n
         <-> n = occurrences c [paper_A; paper_B] /\ 0 < n /\ 2 <= n.
Proof.
  apply (trending_counts steady_results sample_dates 30 2 "20240101 TO 20240131"
           [paper_A; paper_B]); reflexivity.
Defined.

Lemma trending_fallback_witness :
  exists d,
    get_trending_categories broken_results sample_dates 30 2 = inr d
    /\ forall c n,
         dict_get d c = Some n
         <-> n = occurrences c ([paper_A; paper_B] ++ [paper_B; paper_C; paper_A])
             /\ 0 < n /\ 2 <= n.
Proof.
  apply (trending_fallback broken_results sample_dates 30 2 "20240101 TO 20240131"
           [paper_A; paper_B] "HTTP 500" "20240124 TO 20240131"
           [paper_B; paper_C; paper_A] None); reflexivity.
Defined.

Lemma trending_sorted_witness :
  falling [("cs.LG", 4); ("cs.AI", 3)]
  /\ NoDup (dict_keys [("cs.LG", 4); ("cs.AI", 3)])
  /\ Forall (fun e : string * Z => 2 <= snd e /\ 0 < snd e) [("cs.LG", 4); ("cs.AI", 3)].
Proof.
  apply (trending_sorted broken_results sample_dates 30 2). reflexivity.
Defined.

Lemma trending_ties_first_seen_witness :
  get_trending_categories tied_results sample_dates 30 1 =
    inr [("cs.LG", 2); ("cs.AI", 2); ("math.CO", 1)]
  /\ first_seen (categories_of (counted tied_results sample_dates 30)) =
     ["cs.LG"; "math.CO"; "cs.AI"]
  /\ map fst (List.filter (has_count 2) [("cs.LG", 2); ("cs.AI", 2); ("math.CO", 1)]) =
     List.filter
       (fun c => bool_decide (c ∈ dict_keys [("cs.LG", 2); ("cs.AI", 2); ("math.CO", 1)])
                 && (occurrences c (counted tied_results sample_dates 30) =? 2))
       (first_seen (categories_of (counted tied_results sample_dates 30))).
Proof.
  split; [reflexivity|]. split; [reflexivity|].
  apply (trending_ties_first_seen tied_results sample_dates 30 1). reflexivity.
Defined.
